(** * Room reservations: availability queries, slot search and booking locks

    A shallow embedding of
    [src/backend/domains/reservation/repositories/implementations/ReservationRepository.ts]:
    the Prisma-backed [ReservationRepository] and the browser-side
    [SQLiteReservationTool].

    Conventions of the embedding.
    - A JavaScript [Date] is its time value in milliseconds, [option Z];
      [None] is the "Invalid Date" (time value NaN).
    - What the JavaScript runtime and the absent collaborators compute
      ([new Date(string)], [toISOString], [dayjs().format], the date
      validator, ...) is taken as a parameter of the section that uses it.
    - A function that can throw returns a [Completion]; [try]/[catch]/[finally]
      are written out case by case.
    - An [async] function runs without interruption up to its first [await];
      the reply of the awaited [fetch] is an input of the model.
    - The reservation table is a list of rows; a Prisma query is a filter of
      that list and fails only on an invalid [Date]. Logging is left out. *)

From Stdlib Require Import Ascii.
From stdpp Require Import gmap strings list pretty.

Open Scope string_scope.
Open Scope Z_scope.

(** ** JavaScript values *)

Module JS.

(** What a [throw] carries: an [Error] object with its message, or any
    other value. *)
Inductive Thrown :=
| ErrorObj (message : string)
| NonError.

Inductive Completion (A : Type) :=
| Returned (a : A)
| Threw (e : Thrown).
Arguments Returned {A} a.
Arguments Threw {A} e.

(** A [Date]: its time value, [None] when invalid. *)
Abbreviation Date := (option Z).

(** [RangeError] of [toISOString] on an invalid date, and [TypeError] of a
    property read on [null] (the messages are those of V8). *)
Definition RangeError_invalid_time : Thrown := ErrorObj "Invalid time value".
Definition TypeError_null (prop : string) : Thrown :=
  ErrorObj ("Cannot read properties of null (reading '" +:+ prop +:+ "')").

(** [s.split('T')[0]]: the characters before the first [T]. *)
Fixpoint split_T_head (s : string) : string :=
  match s with
  | EmptyString => EmptyString
  | String c rest =>
      if Ascii.eqb c "T"%char then EmptyString else String c (split_T_head rest)
  end.

(** [s.padStart(2, '0')]. *)
Definition padStart2 (s : string) : string :=
  match String.length s with
  | O => "00"
  | S O => "0" +:+ s
  | _ => s
  end.

(** The value of a decimal digit. *)
Definition digit (c : ascii) : option Z :=
  let n := Z.of_N (N_of_ascii c) - 48 in
  if decide (0 ≤ n ≤ 9) then Some n else None.

(** Truthiness of an optional string ([undefined], [null] and [''] are
    falsy). *)
Definition truthy_string (o : option string) : bool :=
  match o with
  | Some s => negb (String.eqb s "")
  | None => false
  end.

(** [a || b] on optional strings, with a string default. *)
Definition or_default (o : option string) (d : string) : string :=
  match o with
  | Some s => if String.eqb s "" then d else s
  | None => d
  end.

(** Truthiness of an optional number ([undefined] and [0] are falsy). *)
Definition truthy_number (o : option Z) : bool :=
  match o with
  | Some n => negb (Z.eqb n 0)
  | None => false
  end.

End JS.

Import JS.

(** ** ReservationRepository *)

Module ReservationRepository.

(** Modelled from the spec: the status enum of [IReservation], whose
    declaration is not part of the sources ("status: small enum (e.g.,
    Confirmed, Cancelled)"). *)
Inductive ReservationStatus := Confirmed | Cancelled.

(** A row of the reservation table ([IReservation]); times are time
    values in milliseconds. *)
Record IReservation := {
  id : Z;
  userId : string;
  roomId : Z;
  startTime : Z;
  endTime : Z;
  status : ReservationStatus;
  regdate : Z
}.

Record IAvailableRoom := {
  av_roomId : Z;
  isAvailable : bool;
  conflictingReservations : list IReservation
}.

#[global] Instance ReservationStatus_eq_dec : EqDecision ReservationStatus.
Proof. solve_decision. Defined.

#[global] Instance IReservation_eq_dec : EqDecision IReservation.
Proof. solve_decision. Defined.

Definition AVAILABLE_ROOMS : list Z := [1; 4; 5; 6].

(** [setHours(getHours() + 1)]: one hour later (no clock change falls
    within that hour). *)
Definition HOUR_MS : Z := 3600000.

Definition room_search_error : Thrown :=
  ErrorObj "방 검색 중 오류가 발생했습니다.".

(** The [where] clause of [findReservationsByDateTime]:
    [startTime >= startDateTime] and [endTime <= endDateTime]. *)
Definition whereByDateTime (startDateTime endDateTime : Z) (r : IReservation) : Prop :=
  startDateTime ≤ startTime r ∧ endTime r ≤ endDateTime.

(** The [where] clause of [findAvailableRooms]:
    [startTime <= endDateTime] AND [endTime > searchDateTime]. *)
Definition whereAvailable (searchDateTime endDateTime : Z) (r : IReservation) : Prop :=
  startTime r ≤ endDateTime ∧ searchDateTime < endTime r.

#[global] Instance whereByDateTime_dec s e r : Decision (whereByDateTime s e r).
Proof. unfold whereByDateTime. apply _. Defined.

#[global] Instance whereAvailable_dec s e r : Decision (whereAvailable s e r).
Proof. unfold whereAvailable. apply _. Defined.

(** The per-room step of [findAvailableRooms] (the body of the [map]). *)
Definition roomAvailability (reservations : list IReservation) (room : Z) : IAvailableRoom :=
  let roomReservations := filter (λ r, roomId r = room) reservations in
  {| av_roomId := room;
     isAvailable := bool_decide (length roomReservations = 0%nat);
     conflictingReservations := roomReservations |}.

Section Repository.

(** [new Date(s)]: the time value, [None] for an invalid date. *)
Variable Date_parse : string → option Z.
(** [d.toISOString()] of a valid date. *)
Variable toISOString : Z → string.
(** [dayjs(d).format('YYYY-MM-DD')]. *)
Variable dayjs_format : option Z → string.
(** The message of the error Prisma raises for an invalid [Date]. *)
Variable prisma_message : string.

(** The rows of the reservation table. *)
Variable table : list IReservation.

Definition findReservationsByDateTime
    (targetDate : Date) (startHour endHour : string)
    : Completion (list IReservation) :=
  let startDateTime := dayjs_format targetDate +:+ " " +:+ startHour in
  let endDateTime := dayjs_format targetDate +:+ " " +:+ endHour in
  match Date_parse startDateTime, Date_parse endDateTime with
  | Some s, Some e => Returned (filter (whereByDateTime s e) table)
  | _, _ => Threw (ErrorObj ("Failed to find reservations: " +:+ prisma_message))
  end.

Definition findAvailableRooms
    (searchDate : Date) (startTime : string)
    : Completion (list IAvailableRoom) :=
  match searchDate with
  | None => Threw room_search_error
  | Some t =>
      match Date_parse (split_T_head (toISOString t) +:+ "T" +:+ startTime) with
      | None => Threw room_search_error
      | Some searchDateTime =>
          let endDateTime := searchDateTime + HOUR_MS in
          let reservations := filter (whereAvailable searchDateTime endDateTime) table in
          Returned (roomAvailability reservations <$> AVAILABLE_ROOMS)
      end
  end.

End Repository.

(** *** Creating a row

    [prisma.reservation.create] is the database's part: it assigns the id of
    the new row, or throws. The table is the list of rows, a created row
    is added at its end. *)

Inductive InsertOutcome :=
| Inserted (assignedId : Z)
| InsertFails (e : Thrown).

(** [createReservation]: the row is built from the entity's user, room,
    times and status and from the current time [now]; the entity's own id
    and registration date are not read. *)
Definition createReservation (table : list IReservation) (now : Z)
    (outcome : InsertOutcome) (reservation : IReservation)
    : list IReservation * Completion IReservation :=
  match outcome with
  | Inserted assignedId =>
      let createdReservation :=
        {| id := assignedId;
           userId := userId reservation;
           roomId := roomId reservation;
           startTime := startTime reservation;
           endTime := endTime reservation;
           status := status reservation;
           regdate := now |} in
      ((table ++ [createdReservation])%list, Returned createdReservation)
  | InsertFails (ErrorObj message) =>
      (table, Threw (ErrorObj ("Failed to create reservation: " +:+ message)))
  | InsertFails NonError =>
      (table, Threw (ErrorObj "Failed to create reservation: Unknown error"))
  end.

(** *** The copy of [findReservationsByDateTime] in [.github/workflows/main.yml] *)

Section WorkflowCopy.

(** [new Date(s)]: the time value, [None] for an invalid date. *)
Variable Date_parse : string → option Z.
(** [getFullYear()], [getMonth()] and [getDate()]; [None] is NaN. *)
Variable getFullYear : Date → option Z.
Variable getMonth : Date → option Z.
Variable getDate : Date → option Z.
Variable prisma_message : string.
Variable table : list IReservation.

(** [String(n)] of a number that is an integer or NaN. *)
Definition numberText (n : option Z) : string :=
  match n with
  | Some z => pretty z
  | None => "NaN"
  end.

(** [`${year}-${month}-${day}`]. *)
Definition dateStr (targetDate : Date) : string :=
  let year := getFullYear targetDate in
  let month := padStart2 (numberText ((λ m, m + 1) <$> getMonth targetDate)) in
  let day := padStart2 (numberText (getDate targetDate)) in
  numberText year +:+ "-" +:+ month +:+ "-" +:+ day.

Definition findReservationsByDateTime_copy
    (targetDate : Date) (startHour endHour : string)
    : Completion (list IReservation) :=
  let startDateTime := Date_parse (dateStr targetDate +:+ " " +:+ startHour) in
  let endDateTime := Date_parse (dateStr targetDate +:+ " " +:+ endHour) in
  match startDateTime, endDateTime with
  | Some s, Some e => Returned (filter (whereByDateTime s e) table)
  | _, _ => Threw (ErrorObj ("Failed to find reservations: " +:+ prisma_message))
  end.

End WorkflowCopy.

End ReservationRepository.

(** ** SQLiteReservationTool *)

Module SQLiteReservationTool.

(** [string | Date], the type of [info.date] and [options.startFrom]. *)
Inductive DateArg :=
| DateString (s : string)
| DateObject (d : Date).

Record CreateReservationInfo := {
  date : DateArg;
  startTime : string;
  duration : Z;
  roomId : Z;
  userName : string;
  content : string
}.

(** [requestBody], the JSON sent to [/api/reservation/create]. *)
Record CreateRequestBody := {
  req_date : string;
  req_startTime : string;
  req_duration : Z;
  req_roomId : Z;
  req_userName : string;
  req_content : string
}.

(** A call to the store's HTTP API: [fetch('/api/reservation/create')]. *)
Inductive Request :=
| PostCreate (body : CreateRequestBody).

(** An element of [result.data]: the fields the slot filter reads, and the
    end of the reserved interval. *)
Record ReservedSlot := {
  reserved_roomId : Z;
  reserved_startTime : string;
  reserved_endTime : string
}.

(** The fields read from a parsed response body; [data] is [None] when
    [result.data] is not an array. *)
Record ApiBody := {
  data : option (list ReservedSlot);
  success : bool;
  error : option string
}.

(** [await response.json()]. *)
Inductive JsonResult :=
| JsonRejects (e : Thrown)
| JsonNull
| JsonObject (o : ApiBody).

(** [await fetch(...)]. *)
Inductive FetchReply :=
| FetchRejects (e : Thrown)
| Response (ok : bool) (json : JsonResult).

(** The tool's mutable state: the lock map [activeReservations], and the
    requests sent so far. *)
Record ToolState := {
  activeReservations : gmap string bool;
  fetchLog : list Request
}.

(** [this.activeReservations.get(key)] used as a condition. *)
Definition lock_held (st : ToolState) (key : string) : bool :=
  match activeReservations st !! key with
  | Some b => b
  | None => false
  end.

(** [this.activeReservations.set(key, true)]. *)
Definition lock_set (key : string) (st : ToolState) : ToolState :=
  {| activeReservations := <[key := true]> (activeReservations st);
     fetchLog := fetchLog st |}.

(** [this.activeReservations.delete(key)]. *)
Definition lock_delete (key : string) (st : ToolState) : ToolState :=
  {| activeReservations := delete key (activeReservations st);
     fetchLog := fetchLog st |}.

Definition post (rq : Request) (st : ToolState) : ToolState :=
  {| activeReservations := activeReservations st;
     fetchLog := fetchLog st ++ [rq] |}.

Definition in_flight_error : Thrown := ErrorObj "동일한 예약이 처리 중입니다.".
Definition create_failed_message : string := "예약 생성에 실패했습니다.".
Definition lookup_failed_error : Thrown := ErrorObj "가용성 확인 실패".
Definition unknown_error_message : string := "알 수 없는 오류가 발생했습니다.".

(** Where [createReservation] stands when it first yields: it has thrown
    (the promise is rejected, [finally] has run), or it awaits the reply
    to the request it sent. *)
Inductive Entered :=
| EnterThrew (e : Thrown)
| Awaiting (requestBody : CreateRequestBody).

(** *** Slots *)

Record Slot := {
  slot_date : string;
  slot_roomId : Z;
  slot_startTime : string;
  slot_endTime : string
}.

#[global] Instance Slot_eq_dec : EqDecision Slot.
Proof. solve_decision. Defined.

Record HourRange := { range_start : Z; range_end : Z }.

Record FindNextOptions := {
  timeRange : string;
  preferredRoom : option Z;
  startFrom : DateArg
}.

Record FindNextResult := {
  availableSlots : list Slot;
  result_success : option bool;
  result_error : option string
}.

(** What [timeRanges[name]] evaluates to: one of the three entries of the
    literal, a member inherited from [Object.prototype] (a function or
    the prototype object: truthy, and without [start] or [end]), or
    [undefined]. *)
Inductive PropertyValue :=
| RangeEntry (r : HourRange)
| InheritedMember
| Undefined.

Definition morning : HourRange := {| range_start := 9; range_end := 12 |}.
Definition afternoon : HourRange := {| range_start := 13; range_end := 18 |}.
Definition all : HourRange := {| range_start := 9; range_end := 18 |}.

(** The property names every object literal inherits. *)
Definition Object_prototype_keys : list string :=
  [ "constructor"; "__defineGetter__"; "__defineSetter__"; "hasOwnProperty";
    "__lookupGetter__"; "__lookupSetter__"; "isPrototypeOf";
    "propertyIsEnumerable"; "toString"; "valueOf"; "__proto__";
    "toLocaleString" ].

(** [timeRanges[name]]. *)
Definition timeRanges (name : string) : PropertyValue :=
  if decide (name = "morning") then RangeEntry morning
  else if decide (name = "afternoon") then RangeEntry afternoon
  else if decide (name = "all") then RangeEntry all
  else if decide (name ∈ Object_prototype_keys) then InheritedMember
  else Undefined.

(** [const range = timeRanges[options.timeRange] || timeRanges.all]. *)
Definition resolveRange (name : string) : PropertyValue :=
  match timeRanges name with
  | Undefined => RangeEntry all
  | v => v
  end.

(** The values [hour] takes in
    [for (let hour = range.start; hour < range.end; hour++)]; with
    [range.start] undefined the loop body never runs. *)
Definition hours (range : PropertyValue) : list Z :=
  match range with
  | RangeEntry r => seqZ (range_start r) (range_end r - range_start r)
  | InheritedMember | Undefined => []
  end.

(** [`${hour.toString().padStart(2, '0')}:00`]. *)
Definition hourLabel (hour : Z) : string := padStart2 (pretty hour) +:+ ":00".

Definition rooms : list Z := [1; 4; 5; 6].

(** The test that skips a room:
    [options.preferredRoom && options.preferredRoom !== roomId]. *)
Definition skipRoom (preferredRoom : option Z) (roomId : Z) : bool :=
  truthy_number preferredRoom && negb (bool_decide (preferredRoom = Some roomId)).

(** The object pushed for one room and one hour. *)
Definition slotAt (isoDate : string) (roomId hour : Z) : Slot :=
  {| slot_date := isoDate;
     slot_roomId := roomId;
     slot_startTime := hourLabel hour;
     slot_endTime := hourLabel (hour + 1) |}.

(** The nested loops that fill [defaultSlots]. *)
Definition defaultSlots (isoDate : string) (range : PropertyValue)
    (preferredRoom : option Z) : list Slot :=
  roomId ← rooms;
  if skipRoom preferredRoom roomId then []
  else slotAt isoDate roomId <$> hours range.

(** The predicate of [reservedSlots.some(...)]. *)
Definition reservedMatches (slot : Slot) (reserved : ReservedSlot) : Prop :=
  reserved_roomId reserved = slot_roomId slot ∧
  reserved_startTime reserved = slot_startTime slot.

#[global] Instance reservedMatches_dec slot reserved :
  Decision (reservedMatches slot reserved).
Proof. unfold reservedMatches. apply _. Defined.

(** [defaultSlots.filter(slot => !reservedSlots.some(...))]. *)
Definition filterSlots (slots : list Slot) (reservedSlots : list ReservedSlot)
    : list Slot :=
  filter (λ slot, ¬ Exists (reservedMatches slot) reservedSlots) slots.

(** Lines 289 to 343: from the parsed response body to the result. *)
Definition slotsResult (isoDate : string) (options : FindNextOptions)
    (result : ApiBody) : FindNextResult :=
  let range := resolveRange (timeRange options) in
  let slots := defaultSlots isoDate range (preferredRoom options) in
  let reservedSlots := default [] (data result) in
  if bool_decide (length reservedSlots = 0%nat) then
    {| availableSlots := slots; result_success := Some true; result_error := None |}
  else
    {| availableSlots := filterSlots slots reservedSlots;
       result_success := Some true; result_error := None |}.

(** The object the [catch] block and the validation branch return. *)
Definition failure (message : string) : FindNextResult :=
  {| availableSlots := []; result_success := Some false;
     result_error := Some message |}.

(** [error instanceof Error ? error.message : '...']. *)
Definition errorMessage (e : Thrown) : string :=
  match e with
  | ErrorObj message => message
  | NonError => unknown_error_message
  end.

Section Tool.

(** [new Date(s)]: the time value, [None] for an invalid date. *)
Variable Date_parse : string → option Z.
(** [d.toISOString()] of a valid date. *)
Variable toISOString : Z → string.
(** [String(d)] of a [Date], as a template literal renders it. *)
Variable Date_toString : Date → string.
(** [DateParsingTool.parseDateString], which may throw. *)
Variable parseDateString : string → Completion Date.
(** [ReservationValidator.validateDate]: an error message or nothing,
    unless it throws. *)
Variable validateDate : Date → Completion (option string).

Definition dateText (d : DateArg) : string :=
  match d with
  | DateString s => s
  | DateObject d => Date_toString d
  end.

(** [`${info.date}_${info.startTime}_${info.roomId}`]. *)
Definition reservationKey (info : CreateReservationInfo) : string :=
  dateText (date info) +:+ "_" +:+ startTime info +:+ "_" +:+ pretty (roomId info).

(** [typeof info.date === 'string' ? new Date(info.date) : info.date]. *)
Definition toDate (d : DateArg) : Date :=
  match d with
  | DateString s => Date_parse s
  | DateObject d => d
  end.

(** [createReservation] from its call to its first [await]. A [throw]
    passes through [catch] (which rethrows) and [finally] (which deletes
    the key). *)
Definition createReservation_enter (info : CreateReservationInfo) (st : ToolState)
    : ToolState * Entered :=
  let key := reservationKey info in
  if lock_held st key then
    (lock_delete key st, EnterThrew in_flight_error)
  else
    let st1 := lock_set key st in
    match toDate (date info) with
    | None => (lock_delete key st1, EnterThrew RangeError_invalid_time)
    | Some t =>
        let requestBody :=
          {| req_date := split_T_head (toISOString t);
             req_startTime := startTime info;
             req_duration := duration info;
             req_roomId := roomId info;
             req_userName := userName info;
             req_content := content info |} in
        (post (PostCreate requestBody) st1, Awaiting requestBody)
    end.

(** [createReservation] from the reply of [fetch] to its end. *)
Definition createReservation_resume (key : string) (reply : FetchReply)
    (st : ToolState) : ToolState * Completion bool :=
  (lock_delete key st,
   match reply with
   | FetchRejects e => Threw e
   | Response false json =>
       match json with
       | JsonRejects e => Threw e
       | JsonNull => Threw (TypeError_null "error")
       | JsonObject errorData =>
           Threw (ErrorObj (or_default (error errorData) create_failed_message))
       end
   | Response true json =>
       match json with
       | JsonRejects e => Threw e
       | JsonNull => Threw (TypeError_null "success")
       | JsonObject responseData => Returned (success responseData)
       end
   end).

(** A call of [createReservation] that no other call interleaves with. *)
Definition createReservation (info : CreateReservationInfo) (reply : FetchReply)
    (st : ToolState) : ToolState * Completion bool :=
  match createReservation_enter info st with
  | (st1, EnterThrew e) => (st1, Threw e)
  | (st1, Awaiting _) => createReservation_resume (reservationKey info) reply st1
  end.

(** [typeof options.startFrom === 'string'
    ? DateParsingTool.parseDateString(options.startFrom)
    : options.startFrom]. *)
Definition targetDateOf (options : FindNextOptions) : Completion Date :=
  match startFrom options with
  | DateString s => parseDateString s
  | DateObject d => Returned d
  end.

(** The [try] block of [findNextAvailable]. *)
Definition findNextAvailable_try (options : FindNextOptions) (reply : FetchReply)
    : Completion FindNextResult :=
  match targetDateOf options with
  | Threw e => Threw e
  | Returned targetDate =>
      match validateDate targetDate with
      | Threw e => Threw e
      | Returned validationError =>
          if truthy_string validationError then
            Returned {| availableSlots := []; result_success := Some false;
                        result_error := validationError |}
          else
            match targetDate with
            | None => Threw RangeError_invalid_time
            | Some t =>
                match reply with
                | FetchRejects e => Threw e
                | Response false _ => Threw lookup_failed_error
                | Response true (JsonRejects e) => Threw e
                | Response true JsonNull => Threw (TypeError_null "data")
                | Response true (JsonObject result) =>
                    Returned (slotsResult (split_T_head (toISOString t)) options result)
                end
            end
      end
  end.

(** [findNextAvailable]: the [try] block under its [catch]. *)
Definition findNextAvailable (options : FindNextOptions) (reply : FetchReply)
    : Completion FindNextResult :=
  match findNextAvailable_try options reply with
  | Returned r => Returned r
  | Threw e => Returned (failure (errorMessage e))
  end.

End Tool.

(** *** checkAvailability *)

Section Availability.

(** The type of [result.data], which the tool hands over unread. *)
Context {Data : Type}.

(** The fields read from a parsed response body of
    [/api/reservation/check]; a field is [None] when it is undefined, and
    [message], when present, is a string. *)
Record CheckBody := {
  check_data : option Data;
  check_message : option string
}.

Inductive CheckJson :=
| CheckJsonRejects (e : Thrown)
| CheckJsonNull
| CheckJsonObject (o : CheckBody).

Inductive CheckReply :=
| CheckRejects (e : Thrown)
| CheckResponse (ok : bool) (json : CheckJson).

(** [checkAvailability]: [date.toISOString()] is evaluated for the request
    body before [fetch] is called; the [catch] block rethrows. *)
Definition checkAvailability (date : Date) (startTime : option string)
    (roomId : option Z) (reply : CheckReply) : Completion (option Data) :=
  match date with
  | None => Threw RangeError_invalid_time
  | Some _ =>
      match reply with
      | CheckRejects e => Threw e
      | CheckResponse false json =>
          match json with
          | CheckJsonRejects e => Threw e
          | CheckJsonNull => Threw (TypeError_null "message")
          | CheckJsonObject error =>
              Threw (ErrorObj (or_default (check_message error) "가용성 확인 실패"))
          end
      | CheckResponse true json =>
          match json with
          | CheckJsonRejects e => Threw e
          | CheckJsonNull => Threw (TypeError_null "data")
          | CheckJsonObject result => Returned (check_data result)
          end
      end
  end.

End Availability.

(** A string without the separator of the reservation key. *)
Fixpoint noUnderscore (s : string) : bool :=
  match s with
  | EmptyString => true
  | String c rest => negb (Ascii.eqb c "_"%char) && noUnderscore rest
  end.

End SQLiteReservationTool.

(** ** The interval contract of the specification

    The predicates the specification words its claims with; the theorems
    below compare the code with them. *)

Module Spec.

Import ReservationRepository.

(** Half-open intervals [[aStart, aEnd)] and [[bStart, bEnd)] overlap. *)
Definition overlaps (aStart aEnd bStart bEnd : Z) : Prop :=
  aStart < bEnd ∧ bStart < aEnd.

#[global] Instance overlaps_dec a b c d : Decision (overlaps a b c d).
Proof. unfold overlaps. apply _. Defined.

(** A reservation's interval overlaps the window. *)
Definition intersects (r : IReservation) (windowStart windowEnd : Z) : Prop :=
  overlaps (startTime r) (endTime r) windowStart windowEnd.

(** A status that counts as occupying the room. *)
Definition occupying (r : IReservation) : Prop := status r ≠ Cancelled.

#[global] Instance occupying_dec r : Decision (occupying r).
Proof. unfold occupying. apply _. Defined.

(** A room's entry lists [r] among its conflicting reservations. *)
Definition reportsConflict (result : list IAvailableRoom) (r : IReservation) : Prop :=
  ∃ a, a ∈ result ∧ av_roomId a = roomId r ∧ r ∈ conflictingReservations a.

(** Minutes since midnight of a time of day written [HH:MM]. *)
Definition minutesOfDay (s : string) : option Z :=
  match s with
  | String h1 (String h0 (String sep (String m1 (String m0 EmptyString)))) =>
      if Ascii.eqb sep ":"%char then
        a ← digit h1; b ← digit h0; c ← digit m1; d ← digit m0;
        Some ((10 * a + b) * 60 + 10 * c + d)
      else None
  | _ => None
  end.

(** The window of a reserved interval intersects the window of a slot. *)
Definition slotIntersects (reserved : SQLiteReservationTool.ReservedSlot)
    (slot : SQLiteReservationTool.Slot) : Prop :=
  ∃ rs re ss se,
    minutesOfDay (SQLiteReservationTool.reserved_startTime reserved) = Some rs ∧
    minutesOfDay (SQLiteReservationTool.reserved_endTime reserved) = Some re ∧
    minutesOfDay (SQLiteReservationTool.slot_startTime slot) = Some ss ∧
    minutesOfDay (SQLiteReservationTool.slot_endTime slot) = Some se ∧
    overlaps rs re ss se.

End Spec.

(** ** A concrete runtime

    The runtime parameters instantiated for a process in the UTC time zone,
    on dates written [YYYY-MM-DDTHH:MM] or [YYYY-MM-DD HH:MM] with a
    four-digit year; the concrete evaluations below run on it. *)

Module UTC.

Fixpoint number_go (acc : Z) (s : string) : option Z :=
  match s with
  | EmptyString => Some acc
  | String c rest => d ← digit c; number_go (10 * acc + d) rest
  end.

Definition number (s : string) : option Z :=
  match s with
  | EmptyString => None
  | _ => number_go 0 s
  end.

(** Days between 1970-01-01 and the civil date [y-m-d]. *)
Definition days_from_civil (y m d : Z) : Z :=
  let y' := if decide (m ≤ 2) then y - 1 else y in
  let era := y' `div` 400 in
  let yoe := y' - era * 400 in
  let mp := if decide (2 < m) then m - 3 else m + 9 in
  let doy := (153 * mp + 2) `div` 5 + d - 1 in
  let doe := yoe * 365 + yoe `div` 4 - yoe `div` 100 + doy in
  era * 146097 + doe - 719468.

(** The civil date [(y, m, d)] of a day number. *)
Definition civil_from_days (z : Z) : Z * Z * Z :=
  let z' := z + 719468 in
  let era := z' `div` 146097 in
  let doe := z' - era * 146097 in
  let yoe := (doe - doe `div` 1460 + doe `div` 36524 - doe `div` 146096) `div` 365 in
  let doy := doe - (365 * yoe + yoe `div` 4 - yoe `div` 100) in
  let mp := (5 * doy + 2) `div` 153 in
  let d := doy - (153 * mp + 2) `div` 5 + 1 in
  let m := if decide (mp < 10) then mp + 3 else mp - 9 in
  let y := yoe + era * 400 in
  (if decide (m ≤ 2) then y + 1 else y, m, d).

Definition DAY_MS : Z := 86400000.

Definition Date_parse (s : string) : option Z :=
  if decide (String.length s = 16%nat) then
    let sep1 := String.substring 4 1 s in
    let sep2 := String.substring 7 1 s in
    let sep3 := String.substring 10 1 s in
    let sep4 := String.substring 13 1 s in
    if decide (sep1 = "-" ∧ sep2 = "-" ∧ (sep3 = "T" ∨ sep3 = " ") ∧ sep4 = ":") then
      y ← number (String.substring 0 4 s);
      m ← number (String.substring 5 2 s);
      d ← number (String.substring 8 2 s);
      hh ← number (String.substring 11 2 s);
      mm ← number (String.substring 14 2 s);
      if decide (1 ≤ m ≤ 12 ∧ 1 ≤ d ≤ 31 ∧ hh ≤ 23 ∧ mm ≤ 59) then
        Some (days_from_civil y m d * DAY_MS + hh * 3600000 + mm * 60000)
      else None
    else None
  else None.

Definition pad (width : nat) (n : Z) : string :=
  let s := pretty n in
  String.concat "" (replicate (width - String.length s) "0") +:+ s.

Definition toISOString (t : Z) : string :=
  let '(y, m, d) := civil_from_days (t `div` DAY_MS) in
  let ms := t `mod` DAY_MS in
  pad 4 y +:+ "-" +:+ pad 2 m +:+ "-" +:+ pad 2 d +:+ "T" +:+
  pad 2 (ms `div` 3600000) +:+ ":" +:+ pad 2 ((ms `div` 60000) `mod` 60) +:+ ":" +:+
  pad 2 ((ms `div` 1000) `mod` 60) +:+ "." +:+ pad 3 (ms `mod` 1000) +:+ "Z".

Definition dayjs_format (d : Date) : string :=
  match d with
  | Some t => split_T_head (toISOString t)
  | None => "Invalid Date"
  end.

(** The rendering of a [Date] inside a template literal, shortened to its
    ISO form. *)
Definition Date_toString (d : Date) : string :=
  match d with
  | Some t => toISOString t
  | None => "Invalid Date"
  end.

(** Stand-ins for the two absent collaborators of [findNextAvailable]:
    a parser that accepts what [Date_parse] accepts, and a validator
    that rejects the invalid date. *)
Definition parseDateString (s : string) : Completion Date := Returned (Date_parse s).

Definition validateDate (d : Date) : Completion (option string) :=
  match d with
  | Some _ => Returned None
  | None => Returned (Some "Invalid date")
  end.

Definition prisma_message : string := "Provided Date object is invalid".

(** The calendar fields of a date, for a process in the UTC time zone. *)
Definition getFullYear (d : Date) : option Z :=
  (λ t, (civil_from_days (t `div` DAY_MS)).1.1) <$> d.

Definition getMonth (d : Date) : option Z :=
  (λ t, (civil_from_days (t `div` DAY_MS)).1.2 - 1) <$> d.

Definition getDate (d : Date) : option Z :=
  (λ t, (civil_from_days (t `div` DAY_MS)).2) <$> d.

End UTC.

(** ** Concrete inputs *)

Module Examples.

Import ReservationRepository.

(** 2024-06-01T00:00:00Z, and an hour of that day. *)
Definition june1 : Date := Some 1717200000000.
Definition at_hour (h : Z) : Z := 1717200000000 + h * HOUR_MS.

Definition booking (n room from to : Z) (s : ReservationStatus) : IReservation :=
  {| id := n; userId := "user"; roomId := room;
     startTime := at_hour from; endTime := at_hour to;
     status := s; regdate := at_hour 0 |}.

(** Room 1, 10:00 to 11:00: starts where the 09:00 window ends. *)
Definition next_hour_booking : IReservation := booking 1 1 10 11 Confirmed.

(** Room 4, 08:00 to 10:00: starts before the window 09:00 to 12:00. *)
Definition early_booking : IReservation := booking 2 4 8 10 Confirmed.

(** Room 1, 09:00 to 10:00, cancelled. *)
Definition cancelled_booking : IReservation := booking 3 1 9 10 Cancelled.

Definition free_room (room : Z) : IAvailableRoom :=
  {| av_roomId := room; isAvailable := true; conflictingReservations := [] |}.

Import SQLiteReservationTool.

Definition empty_state : ToolState :=
  {| activeReservations := ∅; fetchLog := [] |}.

(** A request for room 2, which is not a configured room. *)
Definition room2_request : CreateReservationInfo :=
  {| date := DateString "2024-06-01T00:00"; startTime := "10:00"; duration := 1;
     roomId := 2; userName := "kim"; content := "weekly" |}.

(** A request for room 1. *)
Definition room1_request : CreateReservationInfo :=
  {| date := DateString "2024-06-01T00:00"; startTime := "10:00"; duration := 1;
     roomId := 1; userName := "lee"; content := "review" |}.

Definition body_of (l : list ReservedSlot) : ApiBody :=
  {| data := Some l; success := true; error := None |}.

Definition created : FetchReply := Response true (JsonObject (body_of [])).

Definition store_down : FetchReply := FetchRejects (ErrorObj "Failed to fetch").

Definition morning_all_rooms : FindNextOptions :=
  {| timeRange := "morning"; preferredRoom := None;
     startFrom := DateString "2024-06-01T00:00" |}.

(** Room 1, 09:30 to 10:30: off the slot grid. *)
Definition half_past_nine : ReservedSlot :=
  {| reserved_roomId := 1; reserved_startTime := "09:30";
     reserved_endTime := "10:30" |}.

(** Room 4, 10:00 to 11:00: on the slot grid. *)
Definition ten_oclock : ReservedSlot :=
  {| reserved_roomId := 4; reserved_startTime := "10:00";
     reserved_endTime := "11:00" |}.

Definition slot (room : Z) (from to : string) : Slot :=
  {| slot_date := "2024-06-01"; slot_roomId := room;
     slot_startTime := from; slot_endTime := to |}.

End Examples.

Module MoreExamples.

Import ReservationRepository.

(** Room 1, 09:00 to 10:00. *)
Definition nine_booking : IReservation := Examples.booking 4 1 9 10 Confirmed.

(** Room 2, which is not a configured room, 09:00 to 10:00. *)
Definition room2_booking : IReservation := Examples.booking 5 2 9 10 Confirmed.

(** An entity not yet stored: room 4, 09:00 to 10:00; its id and
    registration date are placeholders. *)
Definition draft : IReservation :=
  {| id := 0; userId := "park"; roomId := 4;
     startTime := Examples.at_hour 9; endTime := Examples.at_hour 10;
     status := Confirmed; regdate := 0 |}.

(** A request whose date does not parse. *)
Definition undated_request : SQLiteReservationTool.CreateReservationInfo :=
  {| SQLiteReservationTool.date := SQLiteReservationTool.DateString "someday";
     SQLiteReservationTool.startTime := "10:00";
     SQLiteReservationTool.duration := 1;
     SQLiteReservationTool.roomId := 1;
     SQLiteReservationTool.userName := "lee";
     SQLiteReservationTool.content := "review" |}.


(** The request for room 1 at 10:00 made by somebody else. *)
Definition room1_rival : SQLiteReservationTool.CreateReservationInfo :=
  {| SQLiteReservationTool.date := SQLiteReservationTool.DateString "2024-06-01T00:00";
     SQLiteReservationTool.startTime := "10:00";
     SQLiteReservationTool.duration := 2;
     SQLiteReservationTool.roomId := 1;
     SQLiteReservationTool.userName := "han";
     SQLiteReservationTool.content := "interview" |}.

End MoreExamples.

(** * Properties of ReservationRepository *)

Section RepositoryFacts.

Import ReservationRepository Examples.

Variable Date_parse : string → option Z.
Variable toISOString : Z → string.
Variable table : list IReservation.

Lemma roomAvailability_available reservations room :
  isAvailable (roomAvailability reservations room) = true ↔
  conflictingReservations (roomAvailability reservations room) = [].
Proof.
  unfold roomAvailability; simpl.
  rewrite bool_decide_eq_true. apply length_zero_iff_nil.
Qed.

Lemma roomAvailability_conflict reservations room r :
  r ∈ conflictingReservations (roomAvailability reservations room) ↔
  roomId r = room ∧ r ∈ reservations.
Proof. unfold roomAvailability; simpl. by rewrite list_elem_of_filter. Qed.

(** The exact condition under which [findAvailableRooms] lists a
    reservation as a conflict: the comparison with the end of the window
    is not strict. *)
Lemma findAvailableRooms_conflict_iff t startTime' searchDateTime r :
  Date_parse (split_T_head (toISOString t) +:+ "T" +:+ startTime') = Some searchDateTime →
  ∃ result,
    findAvailableRooms Date_parse toISOString table (Some t) startTime' = Returned result ∧
    (Spec.reportsConflict result r ↔
     r ∈ table ∧ roomId r ∈ AVAILABLE_ROOMS ∧
     startTime r ≤ searchDateTime + HOUR_MS ∧ searchDateTime < endTime r).
Proof.
  intros Hparse. unfold findAvailableRooms. rewrite Hparse.
  eexists; split; [reflexivity |].
  unfold Spec.reportsConflict. split.
  - intros (a & Ha & Hroom & Hr).
    apply list_elem_of_fmap in Ha as (room & -> & Hin).
    apply roomAvailability_conflict in Hr as [Heq Hr].
    apply list_elem_of_filter in Hr as [[Hs He] Hr].
    simpl in Hroom. subst room. auto.
  - intros (Hr & Hroom & Hs & He).
    exists (roomAvailability
              (filter (whereAvailable searchDateTime (searchDateTime + HOUR_MS)) table)
              (roomId r)).
    split; [by apply list_elem_of_fmap_2 |].
    split; [reflexivity |].
    apply roomAvailability_conflict. split; [reflexivity |].
    apply list_elem_of_filter. split; [by split | done].
Qed.

(** C3, as amended. For a valid search date and start time the result
    has one entry per configured room, in the order of [AVAILABLE_ROOMS];
    an entry lists the fetched reservations of its room whatever their
    status, and the room is available iff that list is empty; with an
    empty table every room is available with no conflict. *)
Theorem findAvailableRooms_per_room t startTime' searchDateTime :
  Date_parse (split_T_head (toISOString t) +:+ "T" +:+ startTime') = Some searchDateTime →
  ∃ result,
    findAvailableRooms Date_parse toISOString table (Some t) startTime' = Returned result ∧
    av_roomId <$> result = AVAILABLE_ROOMS ∧
    (∀ a, a ∈ result →
       conflictingReservations a =
         filter (λ r, roomId r = av_roomId a)
           (filter (whereAvailable searchDateTime (searchDateTime + HOUR_MS)) table) ∧
       (isAvailable a = true ↔ conflictingReservations a = [])) ∧
    (table = [] →
     ∀ a, a ∈ result → isAvailable a = true ∧ conflictingReservations a = []).
Proof.
  intros Hparse. unfold findAvailableRooms. rewrite Hparse.
  eexists; split; [reflexivity |].
  split; [reflexivity |].
  split.
  - intros a Ha. apply list_elem_of_fmap in Ha as (room & -> & _).
    split; [reflexivity | apply roomAvailability_available].
  - intros -> a Ha. apply list_elem_of_fmap in Ha as (room & -> & _).
    split; reflexivity.
Qed.

End RepositoryFacts.

Section WindowQueryFacts.

Import ReservationRepository Examples.

Variable Date_parse : string → option Z.
Variable dayjs_format : option Z → string.
Variable prisma_message : string.
Variable table : list IReservation.

(** C2, as amended. For a window whose two ends parse as dates,
    [findReservationsByDateTime] returns exactly the rows that lie within
    the window: those that start at or after its start and end at or
    before its end. *)
Theorem findReservationsByDateTime_contained targetDate startHour endHour s e :
  Date_parse (dayjs_format targetDate +:+ " " +:+ startHour) = Some s →
  Date_parse (dayjs_format targetDate +:+ " " +:+ endHour) = Some e →
  ∃ found,
    findReservationsByDateTime Date_parse dayjs_format prisma_message table
      targetDate startHour endHour = Returned found ∧
    ∀ r, r ∈ found ↔ r ∈ table ∧ s ≤ startTime r ∧ endTime r ≤ e.
Proof.
  intros Hs He. unfold findReservationsByDateTime. rewrite Hs, He.
  eexists; split; [reflexivity |].
  intros r. rewrite list_elem_of_filter. unfold whereByDateTime.
  split; [intros [[? ?] ?] | intros (? & ? & ?)]; auto.
Qed.

End WindowQueryFacts.

Section RepositoryExamples.

Import ReservationRepository Examples.

(** C1. At the failing input the code departs from the half-open
    contract: asked for room availability at 09:00, hence for the window
    09:00 to 10:00, it lists the booking of room 1 from 10:00 to 11:00 as
    a conflict and marks the room unavailable, although that booking does
    not overlap the window. *)
Theorem findAvailableRooms_touching_end_reported :
  findAvailableRooms UTC.Date_parse UTC.toISOString [next_hour_booking] june1 "09:00"
  = Returned [ {| av_roomId := 1; isAvailable := false;
                  conflictingReservations := [next_hour_booking] |};
               free_room 4; free_room 5; free_room 6 ] ∧
  UTC.Date_parse "2024-06-01T09:00" = Some (at_hour 9) ∧
  ¬ Spec.intersects next_hour_booking (at_hour 9) (at_hour 9 + HOUR_MS).
Proof.
  split; [vm_compute; reflexivity |].
  split; [vm_compute; reflexivity |].
  unfold Spec.intersects, Spec.overlaps; simpl. vm_compute. intros [H _]. discriminate H.
Qed.

(** C2 as amended, at the window 09:00 to 12:00 of 2024-06-01. *)
Lemma findReservationsByDateTime_contained_witness :
  UTC.Date_parse (UTC.dayjs_format june1 +:+ " " +:+ "09:00") = Some (at_hour 9) ∧
  UTC.Date_parse (UTC.dayjs_format june1 +:+ " " +:+ "12:00") = Some (at_hour 12) ∧
  ∃ found,
    findReservationsByDateTime UTC.Date_parse UTC.dayjs_format UTC.prisma_message
      [early_booking; next_hour_booking] june1 "09:00" "12:00" = Returned found ∧
    ∀ r, r ∈ found ↔
         r ∈ [early_booking; next_hour_booking] ∧
         at_hour 9 ≤ startTime r ∧ endTime r ≤ at_hour 12.
Proof.
  split; [vm_compute; reflexivity |].
  split; [vm_compute; reflexivity |].
  apply (findReservationsByDateTime_contained
           UTC.Date_parse UTC.dayjs_format UTC.prisma_message
           [early_booking; next_hour_booking] june1 "09:00" "12:00");
    vm_compute; reflexivity.
Defined.

(** C2, the claim as stated fails: the booking of room 4 from 08:00 to
    10:00 overlaps the window 09:00 to 12:00 and is not returned. *)
Lemma findReservationsByDateTime_misses_early_start :
  UTC.Date_parse (UTC.dayjs_format june1 +:+ " " +:+ "09:00") = Some (at_hour 9) ∧
  UTC.Date_parse (UTC.dayjs_format june1 +:+ " " +:+ "12:00") = Some (at_hour 12) ∧
  early_booking ∈ [early_booking] ∧
  Spec.intersects early_booking (at_hour 9) (at_hour 12) ∧
  findReservationsByDateTime UTC.Date_parse UTC.dayjs_format UTC.prisma_message
    [early_booking] june1 "09:00" "12:00" = Returned [].
Proof.
  split; [vm_compute; reflexivity |].
  split; [vm_compute; reflexivity |].
  split; [apply list_elem_of_here |].
  split; [| vm_compute; reflexivity].
  unfold Spec.intersects, Spec.overlaps. vm_compute. split; reflexivity.
Qed.

(** C3 as amended, at 09:00 of 2024-06-01 with one cancelled booking. *)
Lemma findAvailableRooms_per_room_witness :
  UTC.Date_parse (split_T_head (UTC.toISOString 1717200000000) +:+ "T" +:+ "09:00")
  = Some (at_hour 9) ∧
  ∃ result,
    findAvailableRooms UTC.Date_parse UTC.toISOString [cancelled_booking]
      (Some 1717200000000) "09:00" = Returned result ∧
    av_roomId <$> result = AVAILABLE_ROOMS ∧
    (∀ a, a ∈ result →
       conflictingReservations a =
         filter (λ r, roomId r = av_roomId a)
           (filter (whereAvailable (at_hour 9) (at_hour 9 + HOUR_MS)) [cancelled_booking]) ∧
       (isAvailable a = true ↔ conflictingReservations a = [])) ∧
    ([cancelled_booking] = [] →
     ∀ a, a ∈ result → isAvailable a = true ∧ conflictingReservations a = []).
Proof.
  split; [vm_compute; reflexivity |].
  apply (findAvailableRooms_per_room UTC.Date_parse UTC.toISOString
           [cancelled_booking] 1717200000000 "09:00" (at_hour 9)).
  vm_compute; reflexivity.
Defined.

(** C3, the claim as stated fails: a cancelled booking of room 1 in the
    window leaves nothing once non-occupying statuses are filtered out,
    and the room is still marked unavailable, the cancelled booking itself
    being its conflict. *)
Lemma findAvailableRooms_counts_cancelled :
  ∃ result a,
    findAvailableRooms UTC.Date_parse UTC.toISOString [cancelled_booking] june1 "09:00"
    = Returned result ∧
    a ∈ result ∧ av_roomId a = 1 ∧
    filter Spec.occupying (conflictingReservations a) = [] ∧
    isAvailable a = false ∧
    conflictingReservations a = [cancelled_booking].
Proof.
  eexists. eexists.
  split; [vm_compute; reflexivity |].
  split; [apply list_elem_of_here |].
  repeat split; vm_compute; reflexivity.
Qed.

End RepositoryExamples.

(** * Properties of SQLiteReservationTool.createReservation *)

Section BookingFacts.

Import SQLiteReservationTool.

Variable Date_parse : string → option Z.
Variable toISOString : Z → string.
Variable Date_toString : Date → string.

#[local] Abbreviation reservationKey := (reservationKey Date_toString).
#[local] Abbreviation toDate := (toDate Date_parse).
#[local] Abbreviation createReservation_enter :=
  (createReservation_enter Date_parse toISOString Date_toString).
#[local] Abbreviation createReservation :=
  (createReservation Date_parse toISOString Date_toString).

Lemma lock_delete_lookup key st :
  activeReservations (lock_delete key st) !! key = None.
Proof. unfold lock_delete; simpl. apply lookup_delete_eq. Qed.

Lemma lock_delete_not_held key st : lock_held (lock_delete key st) key = false.
Proof. unfold lock_held. by rewrite lock_delete_lookup. Qed.

Lemma lock_delete_twice key st :
  lock_delete key (lock_delete key st) = lock_delete key st.
Proof. unfold lock_delete; simpl. by rewrite delete_delete_eq. Qed.

Lemma lock_set_held key st : lock_held (lock_set key st) key = true.
Proof. unfold lock_held, lock_set; simpl. by rewrite lookup_insert_eq. Qed.

(** With the key locked, the call throws before it sends anything. *)
Lemma createReservation_enter_locked info st :
  lock_held st (reservationKey info) = true →
  createReservation_enter info st =
    (lock_delete (reservationKey info) st, EnterThrew in_flight_error).
Proof.
  intros Hheld. unfold SQLiteReservationTool.createReservation_enter.
  by rewrite Hheld.
Qed.

(** The [finally] block also runs for the rejected call: it deletes the
    key, although the lock belongs to the call still in flight. *)
Lemma createReservation_enter_locked_unlocks info st :
  lock_held st (reservationKey info) = true →
  lock_held (createReservation_enter info st).1 (reservationKey info) = false.
Proof.
  intros Hheld. rewrite (createReservation_enter_locked _ _ Hheld). simpl.
  apply lock_delete_not_held.
Qed.

(** With the key free and a valid date, the call takes the lock, sends
    one create request and awaits the reply. *)
Lemma createReservation_enter_free info st t :
  lock_held st (reservationKey info) = false →
  toDate (date info) = Some t →
  ∃ requestBody st1,
    createReservation_enter info st = (st1, Awaiting requestBody) ∧
    req_roomId requestBody = roomId info ∧
    lock_held st1 (reservationKey info) = true ∧
    fetchLog st1 = (fetchLog st ++ [PostCreate requestBody])%list.
Proof.
  intros Hfree Hdate. unfold SQLiteReservationTool.createReservation_enter.
  rewrite Hfree, Hdate.
  eexists; eexists; split; [reflexivity |].
  split; [reflexivity |]. split; [| reflexivity].
  unfold post, lock_held; simpl. by rewrite lookup_insert_eq.
Qed.

Lemma createReservation_resume_lookup key reply st :
  activeReservations (createReservation_resume key reply st).1 !! key = None.
Proof. unfold createReservation_resume; simpl. apply lookup_delete_eq. Qed.

(** C4, as amended. [createReservation] does not look at the configured
    room set: whatever the [roomId], a request whose key is free and whose
    date is valid sends exactly one create request carrying that [roomId],
    and completes as the reply dictates, returning the reply's [success]
    flag when the response is ok. *)
Theorem createReservation_sends_any_room info reply st t :
  lock_held st (reservationKey info) = false →
  toDate (date info) = Some t →
  ∃ requestBody,
    fetchLog (createReservation info reply st).1 = (fetchLog st ++ [PostCreate requestBody])%list ∧
    req_roomId requestBody = roomId info ∧
    (createReservation info reply st).2 =
      (createReservation_resume (reservationKey info) reply st).2 ∧
    ∀ responseData,
      reply = Response true (JsonObject responseData) →
      (createReservation info reply st).2 = Returned (success responseData).
Proof.
  intros Hfree Hdate.
  destruct (createReservation_enter_free info st t Hfree Hdate)
    as (requestBody & st1 & Henter & Hroom & _ & Hlog).
  exists requestBody. unfold SQLiteReservationTool.createReservation.
  rewrite Henter. simpl. repeat split; auto.
  intros responseData ->. reflexivity.
Qed.

(** C5. A request that arrives while the lock of its key is held throws
    the in-flight error before its first [await], whatever the store would
    have replied: nothing is sent to the store, and the completion of the
    request that holds the lock is the same as if the second request had
    never arrived. *)
Theorem createReservation_in_flight second st :
  lock_held st (reservationKey second) = true →
  ∃ st',
    createReservation_enter second st = (st', EnterThrew in_flight_error) ∧
    (∀ reply, createReservation second reply st = (st', Threw in_flight_error)) ∧
    fetchLog st' = fetchLog st ∧
    ∀ reply,
      createReservation_resume (reservationKey second) reply st' =
      createReservation_resume (reservationKey second) reply st.
Proof.
  intros Hheld. unfold SQLiteReservationTool.createReservation.
  rewrite (createReservation_enter_locked _ _ Hheld).
  eexists; split; [reflexivity |]. split; [reflexivity |]. split; [reflexivity |].
  intros reply. unfold createReservation_resume.
  by rewrite lock_delete_twice.
Qed.

(** C6. However a call of [createReservation] completes, the lock map no
    longer holds its key: after a whole call (so that the same request,
    made again, is not rejected as in flight), after the part that follows
    the reply (from any state, whatever other calls did meanwhile), and
    after a call that throws before sending anything. *)
Theorem createReservation_releases_lock info reply st :
  activeReservations (createReservation info reply st).1 !! reservationKey info = None ∧
  lock_held (createReservation info reply st).1 (reservationKey info) = false ∧
  (createReservation_enter info (createReservation info reply st).1).2
    ≠ EnterThrew in_flight_error ∧
  (∀ st1, activeReservations
            (createReservation_resume (reservationKey info) reply st1).1
            !! reservationKey info = None) ∧
  match createReservation_enter info st with
  | (st1, EnterThrew _) => activeReservations st1 !! reservationKey info = None
  | (_, Awaiting _) => True
  end.
Proof.
  assert (Henter : match createReservation_enter info st with
                   | (st1, EnterThrew _) =>
                       activeReservations st1 !! reservationKey info = None
                   | (_, Awaiting _) => True
                   end).
  { unfold SQLiteReservationTool.createReservation_enter.
    destruct (lock_held st _); [apply lock_delete_lookup |].
    destruct (toDate _); [exact I | apply lock_delete_lookup]. }
  assert (Hcall : activeReservations (createReservation info reply st).1
                    !! reservationKey info = None).
  { unfold SQLiteReservationTool.createReservation.
    destruct (createReservation_enter info st) as [st1 [e | body]]; simpl.
    - exact Henter.
    - apply lookup_delete_eq. }
  assert (Hfree : lock_held (createReservation info reply st).1 (reservationKey info)
                  = false) by (unfold lock_held; by rewrite Hcall).
  split; [exact Hcall |].
  split; [exact Hfree |].
  split; [| split; [intros st1; apply createReservation_resume_lookup | exact Henter]].
  unfold SQLiteReservationTool.createReservation_enter at 1. rewrite Hfree.
  destruct (toDate _); simpl; [discriminate |].
  unfold RangeError_invalid_time, in_flight_error. intros [= H].
Qed.

End BookingFacts.

Section BookingExamples.

Import SQLiteReservationTool Examples.

#[local] Abbreviation createReservation :=
  (createReservation UTC.Date_parse UTC.toISOString UTC.Date_toString).
#[local] Abbreviation createReservation_enter :=
  (createReservation_enter UTC.Date_parse UTC.toISOString UTC.Date_toString).
#[local] Abbreviation reservationKey := (reservationKey UTC.Date_toString).

(** C4, the claim as stated fails: a request for room 2, which is not a
    configured room, reaches the store and succeeds. *)
Lemma createReservation_room2_reaches_store :
  (roomId room2_request ∉ ReservationRepository.AVAILABLE_ROOMS) ∧
  (createReservation room2_request created empty_state).2 = Returned true ∧
  fetchLog (createReservation room2_request created empty_state).1 =
    [PostCreate {| req_date := "2024-06-01"; req_startTime := "10:00";
                   req_duration := 1; req_roomId := 2;
                   req_userName := "kim"; req_content := "weekly" |}].
Proof.
  split; [| split; vm_compute; reflexivity].
  compute_done.
Qed.

(** C4 as amended, at the request for room 2 on a fresh tool. *)
Lemma createReservation_sends_any_room_witness :
  lock_held empty_state (reservationKey room2_request) = false ∧
  toDate UTC.Date_parse (date room2_request) = Some 1717200000000 ∧
  ∃ requestBody,
    fetchLog (createReservation room2_request created empty_state).1 =
      (fetchLog empty_state ++ [PostCreate requestBody])%list ∧
    req_roomId requestBody = roomId room2_request ∧
    (createReservation room2_request created empty_state).2 =
      (createReservation_resume (reservationKey room2_request) created empty_state).2 ∧
    ∀ responseData,
      created = Response true (JsonObject responseData) →
      (createReservation room2_request created empty_state).2 =
        Returned (success responseData).
Proof.
  split; [vm_compute; reflexivity |].
  split; [vm_compute; reflexivity |].
  apply (createReservation_sends_any_room UTC.Date_parse UTC.toISOString
           UTC.Date_toString room2_request created empty_state 1717200000000);
    vm_compute; reflexivity.
Defined.

(** C5 at a concrete state: the request for room 1 is made a second time
    while its first call awaits the reply. *)
Lemma createReservation_in_flight_witness :
  lock_held (createReservation_enter room1_request empty_state).1
    (reservationKey room1_request) = true ∧
  ∃ st',
    createReservation_enter room1_request
      (createReservation_enter room1_request empty_state).1
    = (st', EnterThrew in_flight_error) ∧
    (∀ reply,
       createReservation room1_request reply
         (createReservation_enter room1_request empty_state).1
       = (st', Threw in_flight_error)) ∧
    fetchLog st' = fetchLog (createReservation_enter room1_request empty_state).1 ∧
    ∀ reply,
      createReservation_resume (reservationKey room1_request) reply st' =
      createReservation_resume (reservationKey room1_request) reply
        (createReservation_enter room1_request empty_state).1.
Proof.
  split; [vm_compute; reflexivity |].
  apply (createReservation_in_flight UTC.Date_parse UTC.toISOString
           UTC.Date_toString room1_request
           (createReservation_enter room1_request empty_state).1).
  vm_compute; reflexivity.
Defined.

End BookingExamples.

(** * Properties of SQLiteReservationTool.findNextAvailable *)

Section ListFacts.

Context {A : Type} (P : A → Prop) `{!∀ x, Decision (P x)}.

Lemma filter_all (l : list A) : (∀ x, x ∈ l → P x) → filter P l = l.
Proof.
  induction l as [| x l IH]; intros Hall; [reflexivity |].
  rewrite filter_cons_True by (apply Hall; left).
  f_equal. apply IH. intros y Hy. apply Hall. by right.
Qed.


End ListFacts.

Section SlotFacts.

Import SQLiteReservationTool.

Lemma resolveRange_entry name r :
  resolveRange name = RangeEntry r → r = morning ∨ r = afternoon ∨ r = all.
Proof.
  unfold resolveRange, timeRanges.
  repeat case_decide; intros [= <-]; auto.
Qed.

Lemma hourLabel_minutes h :
  9 ≤ h ≤ 18 → Spec.minutesOfDay (hourLabel h) = Some (h * 60).
Proof.
  intros Hh.
  assert (Hcases : h = 9 ∨ h = 10 ∨ h = 11 ∨ h = 12 ∨ h = 13 ∨ h = 14 ∨
                   h = 15 ∨ h = 16 ∨ h = 17 ∨ h = 18) by lia.
  repeat (destruct Hcases as [-> | Hcases]; [vm_compute; reflexivity |]).
  subst h. vm_compute; reflexivity.
Qed.

Lemma hourLabel_inj h1 h2 :
  9 ≤ h1 ≤ 18 → 9 ≤ h2 ≤ 18 → hourLabel h1 = hourLabel h2 → h1 = h2.
Proof.
  intros H1 H2 Heq.
  pose proof (hourLabel_minutes h1 H1) as M1.
  pose proof (hourLabel_minutes h2 H2) as M2.
  rewrite Heq, M2 in M1. injection M1. lia.
Qed.

Lemma hours_bounds r h :
  r = morning ∨ r = afternoon ∨ r = all →
  h ∈ hours (RangeEntry r) → 9 ≤ h < 18 ∧ range_start r ≤ h < range_end r.
Proof.
  unfold hours. intros Hr Hh. apply elem_of_seqZ in Hh.
  destruct Hr as [-> | [-> | ->]]; simpl in *; lia.
Qed.

Lemma elem_of_defaultSlots isoDate range preferred s :
  s ∈ defaultSlots isoDate range preferred ↔
  ∃ room hour, room ∈ rooms ∧ skipRoom preferred room = false ∧
               hour ∈ hours range ∧ s = slotAt isoDate room hour.
Proof.
  unfold defaultSlots. rewrite list_elem_of_bind. split.
  - intros (room & Hs & Hroom).
    destruct (skipRoom preferred room) eqn:Hskip; [by apply elem_of_nil in Hs |].
    apply list_elem_of_fmap in Hs as (hour & -> & Hhour). eauto 10.
  - intros (room & hour & Hroom & Hskip & Hhour & ->).
    exists room. rewrite Hskip. split; [by apply list_elem_of_fmap_2 | done].
Qed.


Lemma NoDup_rooms : NoDup rooms.
Proof. unfold rooms. compute_done. Qed.

Lemma NoDup_defaultSlots isoDate r preferred :
  r = morning ∨ r = afternoon ∨ r = all →
  NoDup (defaultSlots isoDate (RangeEntry r) preferred).
Proof.
  intros Hr. unfold defaultSlots. apply NoDup_bind; [| | apply NoDup_rooms].
  - intros room1 room2 s _ _ Hs1 Hs2.
    destruct (skipRoom preferred room1); [by apply elem_of_nil in Hs1 |].
    destruct (skipRoom preferred room2); [by apply elem_of_nil in Hs2 |].
    apply list_elem_of_fmap in Hs1 as (h1 & -> & _).
    apply list_elem_of_fmap in Hs2 as (h2 & Heq & _).
    by injection Heq.
  - intros room _. destruct (skipRoom preferred room); [apply NoDup_nil_2 |].
    apply NoDup_fmap_2_strong; [| apply NoDup_seqZ].
    intros h1 h2 Hh1 Hh2 Heq.
    apply (hours_bounds _ _ Hr) in Hh1. apply (hours_bounds _ _ Hr) in Hh2.
    injection Heq as Hlabel _. apply hourLabel_inj; [lia | lia | exact Hlabel].
Qed.


Lemma skipRoom_truthy p room :
  p ≠ 0 → skipRoom (Some p) room = negb (bool_decide (p = room)).
Proof.
  intros Hp. unfold skipRoom, truthy_number.
  destruct (Z.eqb_spec p 0) as [| _]; [contradiction |]. simpl.
  f_equal. apply bool_decide_ext. split; [by intros [= ->] | by intros ->].
Qed.





Lemma elem_of_filterSlots slots reservedSlots slot :
  slot ∈ filterSlots slots reservedSlots ↔
  slot ∈ slots ∧
  ¬ ∃ reserved, reserved ∈ reservedSlots ∧
                reserved_roomId reserved = slot_roomId slot ∧
                reserved_startTime reserved = slot_startTime slot.
Proof.
  unfold filterSlots. rewrite list_elem_of_filter, Exists_exists.
  unfold reservedMatches. split; intros [H1 H2]; split; auto.
Qed.

End SlotFacts.

Section SlotSearchFacts.

Import SQLiteReservationTool.

Variable toISOString : Z → string.
Variable parseDateString : string → Completion Date.
Variable validateDate : Date → Completion (option string).

#[local] Abbreviation targetDateOf := (targetDateOf parseDateString).
#[local] Abbreviation findNextAvailable :=
  (findNextAvailable toISOString parseDateString validateDate).

(** With a valid, validated date and an ok response whose body parses to
    an object, the result is computed from that body. *)
Lemma findNextAvailable_ok options t validationError result :
  targetDateOf options = Returned (Some t) →
  validateDate (Some t) = Returned validationError →
  truthy_string validationError = false →
  findNextAvailable options (Response true (JsonObject result)) =
  Returned (slotsResult (split_T_head (toISOString t)) options result).
Proof.
  intros Hdate Hvalidate Hvalid.
  unfold SQLiteReservationTool.findNextAvailable, findNextAvailable_try.
  by rewrite Hdate, Hvalidate, Hvalid.
Qed.

(** X22. A range name that is not the name of a member inherited from
    [Object.prototype] resolves to its own window when it is [morning]
    (9 to 12), [afternoon] (13 to 18) or [all] (9 to 18), and to the
    full-day window 9 to 18 otherwise. *)
Theorem resolveRange_fallback name :
  name ∉ Object_prototype_keys →
  resolveRange name =
    RangeEntry
      (if decide (name = "morning") then {| range_start := 9; range_end := 12 |}
       else if decide (name = "afternoon") then {| range_start := 13; range_end := 18 |}
       else {| range_start := 9; range_end := 18 |}).
Proof.
  intros Hname. unfold resolveRange, timeRanges.
  repeat case_decide; try reflexivity. contradiction.
Qed.


(** C9, as amended. The slots returned are the candidates whose room and
    start time, as a pair, equal those of no reservation of the reply; a
    reply whose reservations all start off the slot grid removes no
    candidate. *)
Theorem findNextAvailable_exact_match options t validationError result :
  targetDateOf options = Returned (Some t) →
  validateDate (Some t) = Returned validationError →
  truthy_string validationError = false →
  let candidates :=
    defaultSlots (split_T_head (toISOString t)) (resolveRange (timeRange options))
      (preferredRoom options) in
  ∃ res,
    findNextAvailable options (Response true (JsonObject result)) = Returned res ∧
    (∀ slot,
       slot ∈ availableSlots res ↔
       slot ∈ candidates ∧
       ¬ ∃ reserved, reserved ∈ default [] (data result) ∧
                     reserved_roomId reserved = slot_roomId slot ∧
                     reserved_startTime reserved = slot_startTime slot) ∧
    ((∀ reserved hour, reserved ∈ default [] (data result) →
                       reserved_startTime reserved ≠ hourLabel hour) →
     availableSlots res = candidates).
Proof.
  intros Hdate Hvalidate Hvalid candidates.
  rewrite (findNextAvailable_ok _ _ _ _ Hdate Hvalidate Hvalid).
  eexists; split; [reflexivity |].
  unfold slotsResult. fold candidates.
  case_bool_decide as Hlen; simpl.
  - apply length_zero_iff_nil in Hlen. rewrite Hlen. split; [| reflexivity].
    intros slot. split; [| by intros [? _]].
    intros Hs. split; [exact Hs |]. intros (reserved & Hin & _).
    by apply elem_of_nil in Hin.
  - split; [intros slot; apply elem_of_filterSlots |].
    intros Hoff. apply filter_all. intros slot Hslot.
    rewrite Exists_exists. intros (reserved & Hin & _ & Hstart).
    apply elem_of_defaultSlots in Hslot as (room & hour & _ & _ & _ & ->).
    by apply (Hoff reserved hour).
Qed.


End SlotSearchFacts.

Section SlotSearchExamples.

Import SQLiteReservationTool Examples.

#[local] Abbreviation findNextAvailable :=
  (findNextAvailable UTC.toISOString UTC.parseDateString UTC.validateDate).

(** X22 at the unknown range name [evening]. *)
Lemma resolveRange_fallback_witness :
  ("evening" ∉ Object_prototype_keys) ∧
  resolveRange "evening" = RangeEntry {| range_start := 9; range_end := 18 |}.
Proof.
  assert (H : "evening" ∉ Object_prototype_keys) by compute_done.
  split; [exact H | exact (resolveRange_fallback "evening" H)].
Defined.

(** C7. At the failing input the fallback to the full-day window is
    missed: [constructor] is not one of the known range names, yet
    [timeRanges] yields for it a member inherited from [Object.prototype],
    so that [||] keeps it; the range has no hour, and the search succeeds
    with no slot at all, where an unknown name such as [evening] gets the
    36 slots of the full day. *)
Lemma resolveRange_constructor_no_fallback :
  ("constructor" ∉ ["morning"; "afternoon"; "all"]) ∧
  resolveRange "constructor" ≠ RangeEntry all ∧
  hours (resolveRange "constructor") = [] ∧
  findNextAvailable
    {| timeRange := "constructor"; preferredRoom := None;
       startFrom := DateString "2024-06-01T00:00" |} created
  = Returned {| availableSlots := []; result_success := Some true;
                result_error := None |} ∧
  findNextAvailable
    {| timeRange := "evening"; preferredRoom := None;
       startFrom := DateString "2024-06-01T00:00" |} created
  = Returned {| availableSlots := defaultSlots "2024-06-01" (RangeEntry all) None;
                result_success := Some true; result_error := None |} ∧
  length (defaultSlots "2024-06-01" (RangeEntry all) None) = 36%nat.
Proof.
  split; [compute_done |].
  split; [vm_compute; discriminate |].
  repeat split; vm_compute; reflexivity.
Qed.


(** C9 as amended, at a morning search with one reservation on the grid. *)
Lemma findNextAvailable_exact_match_witness :
  targetDateOf UTC.parseDateString morning_all_rooms = Returned (Some 1717200000000) ∧
  UTC.validateDate (Some 1717200000000) = Returned None ∧
  truthy_string None = false ∧
  ∃ res,
    findNextAvailable morning_all_rooms
      (Response true (JsonObject (body_of [ten_oclock]))) = Returned res ∧
    ∀ slot,
      slot ∈ availableSlots res ↔
      slot ∈ defaultSlots "2024-06-01" (RangeEntry morning) None ∧
      ¬ ∃ reserved, reserved ∈ [ten_oclock] ∧
                    reserved_roomId reserved = slot_roomId slot ∧
                    reserved_startTime reserved = slot_startTime slot.
Proof.
  assert (H1 : targetDateOf UTC.parseDateString morning_all_rooms
               = Returned (Some 1717200000000)) by (vm_compute; reflexivity).
  assert (H2 : UTC.validateDate (Some 1717200000000) = Returned None)
    by (vm_compute; reflexivity).
  assert (H2' : truthy_string None = false) by reflexivity.
  split; [exact H1 |]. split; [exact H2 |]. split; [exact H2' |].
  destruct (findNextAvailable_exact_match UTC.toISOString UTC.parseDateString
              UTC.validateDate morning_all_rooms 1717200000000 None (body_of [ten_oclock])
              H1 H2 H2') as (res & Hres & Hiff & _).
  exists res. split; [exact Hres | exact Hiff].
Defined.

(** C9, the claim as stated fails: a reservation of room 1 from 09:30 to
    10:30 intersects the slots 09:00 to 10:00 and 10:00 to 11:00 of room
    1, and both are still returned as available. *)
Lemma findNextAvailable_keeps_intersected_slot :
  ∃ res,
    findNextAvailable morning_all_rooms
      (Response true (JsonObject (body_of [half_past_nine]))) = Returned res ∧
    slot 1 "09:00" "10:00" ∈ availableSlots res ∧
    slot 1 "10:00" "11:00" ∈ availableSlots res ∧
    reserved_roomId half_past_nine = slot_roomId (slot 1 "09:00" "10:00") ∧
    Spec.slotIntersects half_past_nine (slot 1 "09:00" "10:00") ∧
    Spec.slotIntersects half_past_nine (slot 1 "10:00" "11:00").
Proof.
  eexists. split; [vm_compute; reflexivity |].
  split; [apply list_elem_of_here |].
  split; [apply list_elem_of_further, list_elem_of_here |].
  split; [reflexivity |].
  split; unfold Spec.slotIntersects.
  - exists 570, 630, 540, 600. repeat split; vm_compute; reflexivity.
  - exists 570, 630, 600, 660. repeat split; vm_compute; reflexivity.
Qed.

(** C8. At the failing input the result is not restricted to the preferred
    room: a morning search with [preferredRoom] 0 and nothing reserved
    returns the twelve slots of rooms 1, 4, 5 and 6, none of which is a slot
    of room 0; the same search with [preferredRoom] 2, another number that
    is no configured room, is restricted and returns no slot. *)
Theorem findNextAvailable_room0_not_restricted :
  findNextAvailable
    {| timeRange := "morning"; preferredRoom := Some 0;
       startFrom := DateString "2024-06-01T00:00" |} created
  = Returned {| availableSlots := defaultSlots "2024-06-01" (RangeEntry morning) None;
                result_success := Some true; result_error := None |} ∧
  length (defaultSlots "2024-06-01" (RangeEntry morning) None) = 12%nat ∧
  slot_roomId <$> defaultSlots "2024-06-01" (RangeEntry morning) None
  = [1; 1; 1; 4; 4; 4; 5; 5; 5; 6; 6; 6] ∧
  filter (λ s, slot_roomId s = 0) (defaultSlots "2024-06-01" (RangeEntry morning) None)
  = [] ∧
  findNextAvailable
    {| timeRange := "morning"; preferredRoom := Some 2;
       startFrom := DateString "2024-06-01T00:00" |} created
  = Returned {| availableSlots := []; result_success := Some true;
                result_error := None |}.
Proof. repeat split; vm_compute; reflexivity. Qed.


(** The failures of [findNextAvailable], one by one: a date the validator
    rejects, a store that cannot be reached, a response that is not ok, a
    body that is [null], and a thrown value that is not an [Error]. *)
Example findNextAvailable_failures :
  findNextAvailable
    {| timeRange := "all"; preferredRoom := None; startFrom := DateString "tomorrow" |}
    created = Returned (failure "Invalid date") ∧
  findNextAvailable morning_all_rooms store_down
    = Returned (failure "Failed to fetch") ∧
  findNextAvailable morning_all_rooms (Response false JsonNull)
    = Returned (failure "가용성 확인 실패") ∧
  findNextAvailable morning_all_rooms (Response true JsonNull)
    = Returned (failure "Cannot read properties of null (reading 'data')") ∧
  findNextAvailable morning_all_rooms (FetchRejects NonError)
    = Returned (failure unknown_error_message).
Proof. repeat split; vm_compute; reflexivity. Qed.

End SlotSearchExamples.

(** * Further properties of ReservationRepository *)

Section AvailabilityFacts.

Import ReservationRepository.

Variable Date_parse : string → option Z.
Variable toISOString : Z → string.

#[local] Abbreviation findAvailableRooms := (findAvailableRooms Date_parse toISOString).

Lemma roomAvailability_ext reservations reservations' room :
  filter (λ r, roomId r = room) reservations =
  filter (λ r, roomId r = room) reservations' →
  roomAvailability reservations room = roomAvailability reservations' room.
Proof. unfold roomAvailability. by intros ->. Qed.

(** X1. Rows of rooms outside [AVAILABLE_ROOMS] never influence the
    result of [findAvailableRooms]: the result on a table is the result on
    its rows of configured rooms. *)
Theorem findAvailableRooms_ignores_other_rooms table searchDate startTime' :
  findAvailableRooms table searchDate startTime' =
  findAvailableRooms (filter (λ r, roomId r ∈ AVAILABLE_ROOMS) table) searchDate startTime'.
Proof.
  unfold ReservationRepository.findAvailableRooms.
  destruct searchDate as [t |]; [| reflexivity].
  destruct (Date_parse _) as [searchDateTime |]; [| reflexivity].
  f_equal. apply Forall_fmap_ext, Forall_forall. intros room Hroom.
  apply roomAvailability_ext.
  rewrite !list_filter_filter. apply list_filter_iff. intros r.
  split.
  - intros [Heq Hw]. split; [by split |]. by rewrite Heq.
  - intros [[Heq Hw] _]. by split.
Qed.

(** X2. More rows never free a room: when every row of [table] is also in
    [table'], a room that is available on [table'] is available on
    [table]. *)
Theorem findAvailableRooms_more_rows table table' t startTime' searchDateTime :
  Date_parse (split_T_head (toISOString t) +:+ "T" +:+ startTime') = Some searchDateTime →
  (∀ r, r ∈ table → r ∈ table') →
  ∃ result result',
    findAvailableRooms table (Some t) startTime' = Returned result ∧
    findAvailableRooms table' (Some t) startTime' = Returned result' ∧
    ∀ a a', a ∈ result → a' ∈ result' → av_roomId a = av_roomId a' →
            isAvailable a' = true → isAvailable a = true.
Proof.
  intros Hparse Hsub. unfold ReservationRepository.findAvailableRooms. rewrite Hparse.
  eexists; eexists; split; [reflexivity |]. split; [reflexivity |].
  intros a a' Ha Ha' Hroom Hfree.
  apply list_elem_of_fmap in Ha as (room & -> & _).
  apply list_elem_of_fmap in Ha' as (room' & -> & _).
  simpl in Hroom. subst room'.
  unfold roomAvailability in *. simpl in *.
  apply bool_decide_eq_true. apply bool_decide_eq_true in Hfree.
  apply length_zero_iff_nil. apply length_zero_iff_nil in Hfree.
  apply elem_of_nil_inv. intros r Hr.
  apply list_elem_of_filter in Hr as [Heq Hr].
  apply list_elem_of_filter in Hr as [Hw Hr].
  assert (Hin : r ∈ filter (λ r, roomId r = room)
                      (filter (whereAvailable searchDateTime (searchDateTime + HOUR_MS))
                         table')).
  { apply list_elem_of_filter. split; [exact Heq |].
    apply list_elem_of_filter. split; [exact Hw | by apply Hsub]. }
  rewrite Hfree in Hin. by apply elem_of_nil in Hin.
Qed.

(** X3. A created row is found again: once the database has inserted a
    reservation of a configured room, [findAvailableRooms] lists the created
    row, with the id the database assigned and the creation time, as a
    conflict for every search hour whose window it meets, and marks its room
    unavailable. *)
Theorem createReservation_then_conflict table now n reservation t startTime' searchDateTime :
  Date_parse (split_T_head (toISOString t) +:+ "T" +:+ startTime') = Some searchDateTime →
  roomId reservation ∈ AVAILABLE_ROOMS →
  startTime reservation ≤ searchDateTime + HOUR_MS →
  searchDateTime < endTime reservation →
  ∃ created result,
    createReservation table now (Inserted n) reservation =
      ((table ++ [created])%list, Returned created) ∧
    id created = n ∧ regdate created = now ∧
    findAvailableRooms (table ++ [created])%list (Some t) startTime' = Returned result ∧
    Spec.reportsConflict result created ∧
    ∀ a, a ∈ result → av_roomId a = roomId reservation → isAvailable a = false.
Proof.
  intros Hparse Hroom Hs He.
  set (created := {| id := n; userId := userId reservation;
                     roomId := roomId reservation;
                     startTime := startTime reservation;
                     endTime := endTime reservation;
                     status := status reservation; regdate := now |}).
  destruct (findAvailableRooms_conflict_iff Date_parse toISOString
              (table ++ [created])%list t startTime' searchDateTime created Hparse)
    as (result & Hresult & Hiff).
  exists created, result. split; [reflexivity |].
  split; [reflexivity |]. split; [reflexivity |]. split; [exact Hresult |].
  assert (Hin : created ∈ (table ++ [created])%list).
  { apply elem_of_app. right. apply list_elem_of_here. }
  split; [apply Hiff; repeat split; auto |].
  intros a Ha Hareservation.
  assert (Hres : result =
            roomAvailability
              (filter (whereAvailable searchDateTime (searchDateTime + HOUR_MS))
                 (table ++ [created])%list) <$> AVAILABLE_ROOMS).
  { unfold ReservationRepository.findAvailableRooms in Hresult.
    rewrite Hparse in Hresult. congruence. }
  rewrite Hres in Ha.
  apply list_elem_of_fmap in Ha as (room & -> & _).
  simpl in Hareservation. subst room.
  unfold roomAvailability; simpl. apply bool_decide_eq_false.
  intros Hlen. apply length_zero_iff_nil in Hlen.
  assert (Hc : created ∈ filter (λ r, roomId r = roomId reservation)
                 (filter (whereAvailable searchDateTime (searchDateTime + HOUR_MS))
                    (table ++ [created])%list)).
  { apply list_elem_of_filter. split; [reflexivity |].
    apply list_elem_of_filter. split; [by split | exact Hin]. }
  rewrite Hlen in Hc. by apply elem_of_nil in Hc.
Qed.

End AvailabilityFacts.

Section WindowFacts.

Import ReservationRepository.

Variable Date_parse : string → option Z.
Variable dayjs_format : option Z → string.
Variable prisma_message : string.
Variable table : list IReservation.

#[local] Abbreviation findReservationsByDateTime :=
  (findReservationsByDateTime Date_parse dayjs_format prisma_message table).

(** X5. Narrowing the window filters the result: the rows found for a
    window that lies within another are the rows found for the larger
    window that also lie within the smaller one, in the same order. *)
Theorem findReservationsByDateTime_narrower
    targetDate startHour endHour startHour' endHour' s e s' e' :
  Date_parse (dayjs_format targetDate +:+ " " +:+ startHour) = Some s →
  Date_parse (dayjs_format targetDate +:+ " " +:+ endHour) = Some e →
  Date_parse (dayjs_format targetDate +:+ " " +:+ startHour') = Some s' →
  Date_parse (dayjs_format targetDate +:+ " " +:+ endHour') = Some e' →
  s' ≤ s → e ≤ e' →
  ∃ found found',
    findReservationsByDateTime targetDate startHour endHour = Returned found ∧
    findReservationsByDateTime targetDate startHour' endHour' = Returned found' ∧
    found = filter (whereByDateTime s e) found' ∧
    ∀ r, r ∈ found → r ∈ found'.
Proof.
  intros Hs He Hs' He' Hle1 Hle2.
  unfold ReservationRepository.findReservationsByDateTime.
  rewrite Hs, He, Hs', He'.
  eexists; eexists; split; [reflexivity |]. split; [reflexivity |].
  assert (Heq : filter (whereByDateTime s e) table =
                filter (whereByDateTime s e) (filter (whereByDateTime s' e') table)).
  { rewrite list_filter_filter. apply list_filter_iff. intros r.
    unfold whereByDateTime. split; [intros [H1 H2] | intros [H _]; exact H].
    repeat split; lia. }
  split; [exact Heq |].
  intros r Hr. rewrite Heq in Hr. by apply list_elem_of_filter in Hr as [_ Hr].
Qed.

(** X6. A window that ends at or before its start finds nothing, provided
    every row of the table starts before it ends. *)
Theorem findReservationsByDateTime_empty_window targetDate startHour endHour s e :
  Date_parse (dayjs_format targetDate +:+ " " +:+ startHour) = Some s →
  Date_parse (dayjs_format targetDate +:+ " " +:+ endHour) = Some e →
  e ≤ s →
  (∀ r, r ∈ table → startTime r < endTime r) →
  findReservationsByDateTime targetDate startHour endHour = Returned [].
Proof.
  intros Hs He Hle Hrows.
  unfold ReservationRepository.findReservationsByDateTime. rewrite Hs, He.
  f_equal. apply elem_of_nil_inv. intros r Hr.
  apply list_elem_of_filter in Hr as [[H1 H2] Hr].
  specialize (Hrows r Hr). lia.
Qed.

(** X7. The two queries compose: when the window of
    [findReservationsByDateTime] starts at the search time of
    [findAvailableRooms] and ends no later than one hour after it, every row
    the first returns that starts before it ends and belongs to a
    configured room is a conflict in the result of the second. *)
Theorem findReservationsByDateTime_found_conflicts
    toISOString targetDate startHour endHour s e t r :
  Date_parse (dayjs_format targetDate +:+ " " +:+ startHour) = Some s →
  Date_parse (dayjs_format targetDate +:+ " " +:+ endHour) = Some e →
  Date_parse (split_T_head (toISOString t) +:+ "T" +:+ startHour) = Some s →
  e ≤ s + HOUR_MS →
  startTime r < endTime r →
  roomId r ∈ AVAILABLE_ROOMS →
  ∃ found result,
    findReservationsByDateTime targetDate startHour endHour = Returned found ∧
    findAvailableRooms Date_parse toISOString table (Some t) startHour = Returned result ∧
    (r ∈ found → Spec.reportsConflict result r).
Proof.
  intros Hs He Hsearch Hle Hrow Hroom.
  destruct (findAvailableRooms_conflict_iff Date_parse toISOString table
              t startHour s r Hsearch) as (result & Hresult & Hiff).
  unfold ReservationRepository.findReservationsByDateTime. rewrite Hs, He.
  eexists; exists result. split; [reflexivity |]. split; [exact Hresult |].
  intros Hr. apply list_elem_of_filter in Hr as [[H1 H2] Hr].
  apply Hiff. repeat split; auto; lia.
Qed.

End WindowFacts.

Section WorkflowCopyFacts.

Import ReservationRepository.

Variable Date_parse : string → option Z.
Variable dayjs_format : option Z → string.
Variable getFullYear : Date → option Z.
Variable getMonth : Date → option Z.
Variable getDate : Date → option Z.
Variable prisma_message : string.
Variable table : list IReservation.

(** X8. The copy of [findReservationsByDateTime] kept in the workflow file
    answers as the repository's does, for every window, whenever the date
    it assembles from year, month and day is the date [dayjs] formats. *)
Theorem findReservationsByDateTime_copy_agrees targetDate startHour endHour :
  dateStr getFullYear getMonth getDate targetDate = dayjs_format targetDate →
  findReservationsByDateTime_copy Date_parse getFullYear getMonth getDate
    prisma_message table targetDate startHour endHour =
  findReservationsByDateTime Date_parse dayjs_format prisma_message table
    targetDate startHour endHour.
Proof.
  intros Hdate.
  unfold findReservationsByDateTime_copy, findReservationsByDateTime.
  by rewrite Hdate.
Qed.

End WorkflowCopyFacts.

Section RepositoryExtraExamples.

Import ReservationRepository Examples MoreExamples.

(** X2 at 09:00 of 2024-06-01: an empty table against one booking. *)
Lemma findAvailableRooms_more_rows_witness :
  UTC.Date_parse (split_T_head (UTC.toISOString 1717200000000) +:+ "T" +:+ "09:00")
  = Some (at_hour 9) ∧
  (∀ r, r ∈ [] → r ∈ [nine_booking]) ∧
  ∃ result result',
    findAvailableRooms UTC.Date_parse UTC.toISOString [] june1 "09:00"
    = Returned result ∧
    findAvailableRooms UTC.Date_parse UTC.toISOString [nine_booking] june1 "09:00"
    = Returned result' ∧
    ∀ a a', a ∈ result → a' ∈ result' → av_roomId a = av_roomId a' →
            isAvailable a' = true → isAvailable a = true.
Proof.
  assert (H1 : UTC.Date_parse
                 (split_T_head (UTC.toISOString 1717200000000) +:+ "T" +:+ "09:00")
               = Some (at_hour 9)) by (vm_compute; reflexivity).
  assert (H2 : ∀ r : IReservation, r ∈ [] → r ∈ [nine_booking])
    by (intros r Hr; inversion Hr).
  split; [exact H1 |]. split; [exact H2 |].
  exact (findAvailableRooms_more_rows UTC.Date_parse UTC.toISOString
           [] [nine_booking] 1717200000000 "09:00" (at_hour 9) H1 H2).
Defined.

(** X3 at 09:00 of 2024-06-01: the draft for room 4 is stored and found. *)
Lemma createReservation_then_conflict_witness :
  UTC.Date_parse (split_T_head (UTC.toISOString 1717200000000) +:+ "T" +:+ "09:00")
  = Some (at_hour 9) ∧
  (roomId draft ∈ AVAILABLE_ROOMS) ∧
  startTime draft ≤ at_hour 9 + HOUR_MS ∧
  at_hour 9 < endTime draft ∧
  ∃ created result,
    createReservation [] (at_hour 8) (Inserted 7) draft = ([created], Returned created) ∧
    id created = 7 ∧ regdate created = at_hour 8 ∧
    findAvailableRooms UTC.Date_parse UTC.toISOString [created] june1 "09:00"
    = Returned result ∧
    Spec.reportsConflict result created ∧
    ∀ a, a ∈ result → av_roomId a = roomId draft → isAvailable a = false.
Proof.
  assert (H1 : UTC.Date_parse
                 (split_T_head (UTC.toISOString 1717200000000) +:+ "T" +:+ "09:00")
               = Some (at_hour 9)) by (vm_compute; reflexivity).
  assert (H2 : roomId draft ∈ AVAILABLE_ROOMS) by compute_done.
  assert (H3 : startTime draft ≤ at_hour 9 + HOUR_MS) by (vm_compute; discriminate).
  assert (H4 : at_hour 9 < endTime draft) by (vm_compute; reflexivity).
  split; [exact H1 |]. split; [exact H2 |]. split; [exact H3 |]. split; [exact H4 |].
  exact (createReservation_then_conflict UTC.Date_parse UTC.toISOString
           [] (at_hour 8) 7 draft 1717200000000 "09:00" (at_hour 9) H1 H2 H3 H4).
Defined.

(** X5 at 2024-06-01: the window 10:00 to 11:00 within 09:00 to 12:00. *)
Lemma findReservationsByDateTime_narrower_witness :
  UTC.Date_parse (UTC.dayjs_format june1 +:+ " " +:+ "10:00") = Some (at_hour 10) ∧
  UTC.Date_parse (UTC.dayjs_format june1 +:+ " " +:+ "11:00") = Some (at_hour 11) ∧
  UTC.Date_parse (UTC.dayjs_format june1 +:+ " " +:+ "09:00") = Some (at_hour 9) ∧
  UTC.Date_parse (UTC.dayjs_format june1 +:+ " " +:+ "12:00") = Some (at_hour 12) ∧
  at_hour 9 ≤ at_hour 10 ∧ at_hour 11 ≤ at_hour 12 ∧
  ∃ found found',
    findReservationsByDateTime UTC.Date_parse UTC.dayjs_format UTC.prisma_message
      [nine_booking; next_hour_booking] june1 "10:00" "11:00" = Returned found ∧
    findReservationsByDateTime UTC.Date_parse UTC.dayjs_format UTC.prisma_message
      [nine_booking; next_hour_booking] june1 "09:00" "12:00" = Returned found' ∧
    found = filter (whereByDateTime (at_hour 10) (at_hour 11)) found' ∧
    ∀ r, r ∈ found → r ∈ found'.
Proof.
  assert (H1 : UTC.Date_parse (UTC.dayjs_format june1 +:+ " " +:+ "10:00")
               = Some (at_hour 10)) by (vm_compute; reflexivity).
  assert (H2 : UTC.Date_parse (UTC.dayjs_format june1 +:+ " " +:+ "11:00")
               = Some (at_hour 11)) by (vm_compute; reflexivity).
  assert (H3 : UTC.Date_parse (UTC.dayjs_format june1 +:+ " " +:+ "09:00")
               = Some (at_hour 9)) by (vm_compute; reflexivity).
  assert (H4 : UTC.Date_parse (UTC.dayjs_format june1 +:+ " " +:+ "12:00")
               = Some (at_hour 12)) by (vm_compute; reflexivity).
  assert (H5 : at_hour 9 ≤ at_hour 10) by (vm_compute; discriminate).
  assert (H6 : at_hour 11 ≤ at_hour 12) by (vm_compute; discriminate).
  split; [exact H1 |]. split; [exact H2 |]. split; [exact H3 |]. split; [exact H4 |].
  split; [exact H5 |]. split; [exact H6 |].
  exact (findReservationsByDateTime_narrower UTC.Date_parse UTC.dayjs_format
           UTC.prisma_message [nine_booking; next_hour_booking] june1
           "10:00" "11:00" "09:00" "12:00" _ _ _ _ H1 H2 H3 H4 H5 H6).
Defined.

(** X6 at 2024-06-01: the window from 12:00 back to 09:00. *)
Lemma findReservationsByDateTime_empty_window_witness :
  UTC.Date_parse (UTC.dayjs_format june1 +:+ " " +:+ "12:00") = Some (at_hour 12) ∧
  UTC.Date_parse (UTC.dayjs_format june1 +:+ " " +:+ "09:00") = Some (at_hour 9) ∧
  at_hour 9 ≤ at_hour 12 ∧
  (∀ r, r ∈ [nine_booking; next_hour_booking] → startTime r < endTime r) ∧
  findReservationsByDateTime UTC.Date_parse UTC.dayjs_format UTC.prisma_message
    [nine_booking; next_hour_booking] june1 "12:00" "09:00" = Returned [].
Proof.
  assert (H1 : UTC.Date_parse (UTC.dayjs_format june1 +:+ " " +:+ "12:00")
               = Some (at_hour 12)) by (vm_compute; reflexivity).
  assert (H2 : UTC.Date_parse (UTC.dayjs_format june1 +:+ " " +:+ "09:00")
               = Some (at_hour 9)) by (vm_compute; reflexivity).
  assert (H3 : at_hour 9 ≤ at_hour 12) by (vm_compute; discriminate).
  assert (H4 : ∀ r, r ∈ [nine_booking; next_hour_booking] → startTime r < endTime r).
  { intros r Hr. apply elem_of_cons in Hr as [-> | Hr]; [vm_compute; reflexivity |].
    apply list_elem_of_singleton in Hr as ->. vm_compute; reflexivity. }
  split; [exact H1 |]. split; [exact H2 |]. split; [exact H3 |]. split; [exact H4 |].
  exact (findReservationsByDateTime_empty_window UTC.Date_parse UTC.dayjs_format
           UTC.prisma_message [nine_booking; next_hour_booking] june1
           "12:00" "09:00" _ _ H1 H2 H3 H4).
Defined.

(** X7 at 09:00 of 2024-06-01 for the booking of room 1 from 09:00. *)
Lemma findReservationsByDateTime_found_conflicts_witness :
  UTC.Date_parse (UTC.dayjs_format june1 +:+ " " +:+ "09:00") = Some (at_hour 9) ∧
  UTC.Date_parse (UTC.dayjs_format june1 +:+ " " +:+ "10:00") = Some (at_hour 10) ∧
  UTC.Date_parse (split_T_head (UTC.toISOString 1717200000000) +:+ "T" +:+ "09:00")
  = Some (at_hour 9) ∧
  at_hour 10 ≤ at_hour 9 + HOUR_MS ∧
  startTime nine_booking < endTime nine_booking ∧
  (roomId nine_booking ∈ AVAILABLE_ROOMS) ∧
  ∃ found result,
    findReservationsByDateTime UTC.Date_parse UTC.dayjs_format UTC.prisma_message
      [nine_booking] june1 "09:00" "10:00" = Returned found ∧
    findAvailableRooms UTC.Date_parse UTC.toISOString [nine_booking] june1 "09:00"
    = Returned result ∧
    (nine_booking ∈ found → Spec.reportsConflict result nine_booking).
Proof.
  assert (H1 : UTC.Date_parse (UTC.dayjs_format june1 +:+ " " +:+ "09:00")
               = Some (at_hour 9)) by (vm_compute; reflexivity).
  assert (H2 : UTC.Date_parse (UTC.dayjs_format june1 +:+ " " +:+ "10:00")
               = Some (at_hour 10)) by (vm_compute; reflexivity).
  assert (H3 : UTC.Date_parse
                 (split_T_head (UTC.toISOString 1717200000000) +:+ "T" +:+ "09:00")
               = Some (at_hour 9)) by (vm_compute; reflexivity).
  assert (H4 : at_hour 10 ≤ at_hour 9 + HOUR_MS) by (vm_compute; discriminate).
  assert (H5 : startTime nine_booking < endTime nine_booking) by (vm_compute; reflexivity).
  assert (H6 : roomId nine_booking ∈ AVAILABLE_ROOMS) by compute_done.
  split; [exact H1 |]. split; [exact H2 |]. split; [exact H3 |]. split; [exact H4 |].
  split; [exact H5 |]. split; [exact H6 |].
  exact (findReservationsByDateTime_found_conflicts UTC.Date_parse UTC.dayjs_format
           UTC.prisma_message [nine_booking] UTC.toISOString june1 "09:00" "10:00"
           _ _ 1717200000000 nine_booking H1 H2 H3 H4 H5 H6).
Defined.

(** X8 at 2024-06-01 in a UTC process. *)
Lemma findReservationsByDateTime_copy_agrees_witness :
  dateStr UTC.getFullYear UTC.getMonth UTC.getDate june1 = UTC.dayjs_format june1 ∧
  findReservationsByDateTime_copy UTC.Date_parse UTC.getFullYear UTC.getMonth UTC.getDate
    UTC.prisma_message [nine_booking] june1 "09:00" "12:00" =
  findReservationsByDateTime UTC.Date_parse UTC.dayjs_format UTC.prisma_message
    [nine_booking] june1 "09:00" "12:00".
Proof.
  assert (H : dateStr UTC.getFullYear UTC.getMonth UTC.getDate june1
              = UTC.dayjs_format june1) by (vm_compute; reflexivity).
  split; [exact H |].
  exact (findReservationsByDateTime_copy_agrees UTC.Date_parse UTC.dayjs_format
           UTC.getFullYear UTC.getMonth UTC.getDate UTC.prisma_message
           [nine_booking] june1 "09:00" "12:00" H).
Defined.

End RepositoryExtraExamples.

(** * Further properties of SQLiteReservationTool.createReservation *)

Section KeyFacts.

Import SQLiteReservationTool.

(** Two strings cut at the first underscore have equal parts. *)
Lemma append_underscore_inj (a b x y : string) :
  noUnderscore a = true → noUnderscore b = true →
  a +:+ "_" +:+ x = b +:+ "_" +:+ y → a = b ∧ x = y.
Proof.
  revert b. induction a as [| c a IH]; intros [| d b] Ha Hb Heq; simpl in *.
  - by injection Heq.
  - injection Heq as <- _. by rewrite Ascii.eqb_refl in Hb.
  - injection Heq as -> _. by rewrite Ascii.eqb_refl in Ha.
  - injection Heq as -> Heq.
    apply andb_prop in Ha as [_ Ha]. apply andb_prop in Hb as [_ Hb].
    destruct (IH b Ha Hb Heq) as [-> ->]. done.
Qed.

End KeyFacts.

Section BookingExtraFacts.

Import SQLiteReservationTool.

Variable Date_parse : string → option Z.
Variable toISOString : Z → string.
Variable Date_toString : Date → string.

#[local] Abbreviation dateText := (dateText Date_toString).
#[local] Abbreviation reservationKey := (reservationKey Date_toString).
#[local] Abbreviation toDate := (toDate Date_parse).
#[local] Abbreviation createReservation_enter :=
  (createReservation_enter Date_parse toISOString Date_toString).
#[local] Abbreviation createReservation :=
  (createReservation Date_parse toISOString Date_toString).

(** X9. The reservation key tells slots apart: two requests whose date
    text and start time contain no underscore have the same key only if
    they have the same date text, the same start time and the same room. *)
Theorem reservationKey_inj a b :
  noUnderscore (dateText (date a)) = true →
  noUnderscore (dateText (date b)) = true →
  noUnderscore (startTime a) = true →
  noUnderscore (startTime b) = true →
  reservationKey a = reservationKey b →
  dateText (date a) = dateText (date b) ∧
  startTime a = startTime b ∧
  roomId a = roomId b.
Proof.
  intros Hda Hdb Hsa Hsb Hkey. unfold SQLiteReservationTool.reservationKey in Hkey.
  apply append_underscore_inj in Hkey as [Hdate Hrest]; [| exact Hda | exact Hdb].
  apply append_underscore_inj in Hrest as [Hstart Hroom]; [| exact Hsa | exact Hsb].
  split; [exact Hdate |]. split; [exact Hstart |].
  by apply (inj pretty) in Hroom.
Qed.

(** X10. A call touches the lock of its own key only: the entry of every
    other key is after the call what it was before. *)
Theorem createReservation_other_keys info reply st key :
  key ≠ reservationKey info →
  activeReservations (createReservation info reply st).1 !! key =
  activeReservations st !! key.
Proof.
  intros Hkey.
  unfold SQLiteReservationTool.createReservation,
    SQLiteReservationTool.createReservation_enter.
  destruct (lock_held st _); simpl.
  - by rewrite lookup_delete_ne.
  - destruct (toDate _); simpl.
    + rewrite lookup_delete_ne by done. by rewrite lookup_insert_ne.
    + rewrite lookup_delete_ne by done. by rewrite lookup_insert_ne.
Qed.

(** X11. A call sends at most one request; it sends one exactly when its
    key is free and its date is valid, and then the request carries the
    date part of the ISO form of that date and the fields of the call. *)
Theorem createReservation_requests info reply st :
  ∃ sent,
    fetchLog (createReservation info reply st).1 = (fetchLog st ++ sent)%list ∧
    match toDate (date info) with
    | Some t =>
        if lock_held st (reservationKey info) then sent = []
        else sent = [PostCreate {| req_date := split_T_head (toISOString t);
                                   req_startTime := startTime info;
                                   req_duration := duration info;
                                   req_roomId := roomId info;
                                   req_userName := userName info;
                                   req_content := content info |}]
    | None => sent = []
    end.
Proof.
  unfold SQLiteReservationTool.createReservation,
    SQLiteReservationTool.createReservation_enter.
  destruct (lock_held st _); simpl.
  - exists []. split; [by rewrite app_nil_r |]. by destruct (toDate _).
  - destruct (toDate _); simpl.
    + eexists. split; reflexivity.
    + exists []. split; [by rewrite app_nil_r | reflexivity].
Qed.

(** X12. A date that does not parse is met by the [RangeError] of
    [toISOString]: nothing is sent, and the key, set a moment before, is
    deleted again. *)
Theorem createReservation_invalid_date info reply st :
  lock_held st (reservationKey info) = false →
  toDate (date info) = None →
  ∃ st',
    createReservation info reply st = (st', Threw RangeError_invalid_time) ∧
    fetchLog st' = fetchLog st ∧
    activeReservations st' = delete (reservationKey info) (activeReservations st).
Proof.
  intros Hfree Hdate.
  unfold SQLiteReservationTool.createReservation,
    SQLiteReservationTool.createReservation_enter.
  rewrite Hfree, Hdate. eexists. split; [reflexivity |]. split; [reflexivity |].
  simpl. apply delete_insert_eq.
Qed.

(** X13. The lock does not outlast a rejected call: once a second call has
    been rejected while the first awaits its reply, a third call for the
    same key is let through, so that two create requests for one key are
    sent before the first has completed. *)
Theorem createReservation_third_call info st t :
  lock_held st (reservationKey info) = false →
  toDate (date info) = Some t →
  ∃ requestBody st1 st2 st3,
    createReservation_enter info st = (st1, Awaiting requestBody) ∧
    createReservation_enter info st1 = (st2, EnterThrew in_flight_error) ∧
    createReservation_enter info st2 = (st3, Awaiting requestBody) ∧
    fetchLog st3 =
      (fetchLog st ++ [PostCreate requestBody; PostCreate requestBody])%list.
Proof.
  intros Hfree Hdate.
  assert (Hstep : ∀ st0, lock_held st0 (reservationKey info) = false →
            createReservation_enter info st0 =
            (post (PostCreate {| req_date := split_T_head (toISOString t);
                                 req_startTime := startTime info;
                                 req_duration := duration info;
                                 req_roomId := roomId info;
                                 req_userName := userName info;
                                 req_content := content info |})
               (lock_set (reservationKey info) st0),
             Awaiting {| req_date := split_T_head (toISOString t);
                         req_startTime := startTime info;
                         req_duration := duration info;
                         req_roomId := roomId info;
                         req_userName := userName info;
                         req_content := content info |})).
  { intros st0 H0. unfold SQLiteReservationTool.createReservation_enter.
    by rewrite H0, Hdate. }
  eexists; eexists; eexists; eexists.
  split; [apply Hstep; exact Hfree |].
  split.
  { apply createReservation_enter_locked.
    unfold post, lock_held; simpl. by rewrite lookup_insert_eq. }
  split; [apply Hstep; apply lock_delete_not_held |].
  simpl. by rewrite <- app_assoc.
Qed.

(** X14. A call reports what the store replied, and nothing else: it
    returns a value exactly when its key was free, its date valid and the
    response ok with an object body, and the value is the [success] field of
    that body. *)
Theorem createReservation_returns info reply st b :
  (createReservation info reply st).2 = Returned b ↔
  lock_held st (reservationKey info) = false ∧
  is_Some (toDate (date info)) ∧
  ∃ responseData, reply = Response true (JsonObject responseData) ∧
                  success responseData = b.
Proof.
  unfold SQLiteReservationTool.createReservation,
    SQLiteReservationTool.createReservation_enter.
  destruct (lock_held st _); simpl.
  { split; [discriminate | intros [? _]; discriminate]. }
  destruct (toDate _) as [t |]; simpl.
  - destruct reply as [e | [|] [e | | responseData]]; simpl;
      (split; [try discriminate | intros (_ & _ & o & Ho & Hb); try discriminate]).
    + intros [= <-]. split; [reflexivity |]. split; [by eexists |]. by eexists.
    + injection Ho as <-. by rewrite Hb.
  - split; [discriminate | intros (_ & [? ?] & _); discriminate].
Qed.

End BookingExtraFacts.

Section BookingExtraExamples.

Import SQLiteReservationTool Examples MoreExamples.

#[local] Abbreviation createReservation :=
  (createReservation UTC.Date_parse UTC.toISOString UTC.Date_toString).
#[local] Abbreviation createReservation_enter :=
  (createReservation_enter UTC.Date_parse UTC.toISOString UTC.Date_toString).
#[local] Abbreviation reservationKey := (reservationKey UTC.Date_toString).

(** X9 at two requests for room 1 at 10:00 of the same day. *)
Lemma reservationKey_inj_witness :
  noUnderscore (dateText UTC.Date_toString (date room1_request)) = true ∧
  noUnderscore (dateText UTC.Date_toString (date room1_rival)) = true ∧
  noUnderscore (startTime room1_request) = true ∧
  noUnderscore (startTime room1_rival) = true ∧
  reservationKey room1_request = reservationKey room1_rival ∧
  dateText UTC.Date_toString (date room1_request)
  = dateText UTC.Date_toString (date room1_rival) ∧
  startTime room1_request = startTime room1_rival ∧
  roomId room1_request = roomId room1_rival.
Proof.
  assert (H1 : noUnderscore (dateText UTC.Date_toString (date room1_request)) = true)
    by reflexivity.
  assert (H2 : noUnderscore (dateText UTC.Date_toString (date room1_rival)) = true)
    by reflexivity.
  assert (H3 : noUnderscore (startTime room1_request) = true) by reflexivity.
  assert (H4 : noUnderscore (startTime room1_rival) = true) by reflexivity.
  assert (H5 : reservationKey room1_request = reservationKey room1_rival)
    by (vm_compute; reflexivity).
  split; [exact H1 |]. split; [exact H2 |]. split; [exact H3 |]. split; [exact H4 |].
  split; [exact H5 |].
  exact (reservationKey_inj UTC.Date_toString room1_request room1_rival
           H1 H2 H3 H4 H5).
Defined.

(** X10 at the request for room 1, seen from the key of room 2. *)
Lemma createReservation_other_keys_witness :
  reservationKey room2_request ≠ reservationKey room1_request ∧
  activeReservations (createReservation room1_request created empty_state).1
    !! reservationKey room2_request
  = activeReservations empty_state !! reservationKey room2_request.
Proof.
  assert (H : reservationKey room2_request ≠ reservationKey room1_request)
    by (vm_compute; discriminate).
  split; [exact H |].
  exact (createReservation_other_keys UTC.Date_parse UTC.toISOString UTC.Date_toString
           room1_request created empty_state (reservationKey room2_request) H).
Defined.

(** X12 at a request dated [someday]. *)
Lemma createReservation_invalid_date_witness :
  lock_held empty_state (reservationKey undated_request) = false ∧
  toDate UTC.Date_parse (date undated_request) = None ∧
  ∃ st',
    createReservation undated_request created empty_state
    = (st', Threw RangeError_invalid_time) ∧
    fetchLog st' = fetchLog empty_state ∧
    activeReservations st' =
      delete (reservationKey undated_request) (activeReservations empty_state).
Proof.
  assert (H1 : lock_held empty_state (reservationKey undated_request) = false)
    by (vm_compute; reflexivity).
  assert (H2 : toDate UTC.Date_parse (date undated_request) = None)
    by (vm_compute; reflexivity).
  split; [exact H1 |]. split; [exact H2 |].
  exact (createReservation_invalid_date UTC.Date_parse UTC.toISOString
           UTC.Date_toString undated_request created empty_state H1 H2).
Defined.

(** X13 at the request for room 1 on a fresh tool. *)
Lemma createReservation_third_call_witness :
  lock_held empty_state (reservationKey room1_request) = false ∧
  toDate UTC.Date_parse (date room1_request) = Some 1717200000000 ∧
  ∃ requestBody st1 st2 st3,
    createReservation_enter room1_request empty_state = (st1, Awaiting requestBody) ∧
    createReservation_enter room1_request st1 = (st2, EnterThrew in_flight_error) ∧
    createReservation_enter room1_request st2 = (st3, Awaiting requestBody) ∧
    fetchLog st3 =
      (fetchLog empty_state ++ [PostCreate requestBody; PostCreate requestBody])%list.
Proof.
  assert (H1 : lock_held empty_state (reservationKey room1_request) = false)
    by (vm_compute; reflexivity).
  assert (H2 : toDate UTC.Date_parse (date room1_request) = Some 1717200000000)
    by (vm_compute; reflexivity).
  split; [exact H1 |]. split; [exact H2 |].
  exact (createReservation_third_call UTC.Date_parse UTC.toISOString
           UTC.Date_toString room1_request empty_state 1717200000000 H1 H2).
Defined.

End BookingExtraExamples.

(** * Further properties of SQLiteReservationTool.findNextAvailable *)

Section SlotExtraFacts.

Import SQLiteReservationTool.

Lemma hours_resolveRange name h :
  h ∈ hours (resolveRange name) → 9 ≤ h < 18.
Proof.
  destruct (resolveRange name) as [r | |] eqn:Hrange; simpl;
    [| intros H; by apply elem_of_nil in H | intros H; by apply elem_of_nil in H].
  intros Hh. by apply (hours_bounds r h (resolveRange_entry _ _ Hrange)).
Qed.

Lemma elem_of_slotsResult isoDate options result s :
  s ∈ availableSlots (slotsResult isoDate options result) ↔
  s ∈ defaultSlots isoDate (resolveRange (timeRange options)) (preferredRoom options) ∧
  ¬ ∃ reserved, reserved ∈ default [] (data result) ∧
                reserved_roomId reserved = slot_roomId s ∧
                reserved_startTime reserved = slot_startTime s.
Proof.
  unfold slotsResult. case_bool_decide as Hlen; simpl.
  - apply length_zero_iff_nil in Hlen. rewrite Hlen.
    split; [| by intros [? _]].
    intros Hs. split; [exact Hs |]. intros (reserved & Hin & _).
    by apply elem_of_nil in Hin.
  - apply elem_of_filterSlots.
Qed.


Lemma NoDup_defaultSlots_resolved isoDate name preferred :
  NoDup (defaultSlots isoDate (resolveRange name) preferred).
Proof.
  destruct (resolveRange name) as [r | |] eqn:Hrange.
  - apply NoDup_defaultSlots. by apply (resolveRange_entry name).
  - unfold defaultSlots, rooms; simpl.
    repeat destruct (skipRoom preferred _); apply NoDup_nil_2.
  - unfold defaultSlots, rooms; simpl.
    repeat destruct (skipRoom preferred _); apply NoDup_nil_2.
Qed.

End SlotExtraFacts.

Section SlotSearchExtraFacts.

Import SQLiteReservationTool.

Variable toISOString : Z → string.
Variable parseDateString : string → Completion Date.
Variable validateDate : Date → Completion (option string).

#[local] Abbreviation targetDateOf := (targetDateOf parseDateString).
#[local] Abbreviation findNextAvailable :=
  (findNextAvailable toISOString parseDateString validateDate).

(** Whatever is returned either proposes no slot or was computed from the
    body of an ok response for a valid date. *)
Lemma findNextAvailable_slots options reply res :
  findNextAvailable options reply = Returned res →
  availableSlots res = [] ∨
  ∃ t result,
    targetDateOf options = Returned (Some t) ∧
    res = slotsResult (split_T_head (toISOString t)) options result.
Proof.
  unfold SQLiteReservationTool.findNextAvailable, findNextAvailable_try.
  destruct (targetDateOf options) as [targetDate | e];
    [| intros [= <-]; by left].
  destruct (validateDate targetDate) as [validationError | e];
    [| intros [= <-]; by left].
  destruct (truthy_string validationError); [intros [= <-]; by left |].
  destruct targetDate as [t |]; [| intros [= <-]; by left].
  destruct reply as [e | [|] [e | | result]]; intros [= <-]; try (by left).
  right. by exists t, result.
Qed.

(** X15. Every slot [findNextAvailable] returns is a slot of the grid: it
    belongs to a configured room, and to the preferred room when
    [preferredRoom] is a non-zero number; it bears the date part of the ISO
    form of the target date; it starts on an hour from 09:00 to 17:00 and
    ends one hour later. *)
Theorem findNextAvailable_slots_on_grid options reply res s :
  findNextAvailable options reply = Returned res →
  s ∈ availableSlots res →
  slot_roomId s ∈ rooms ∧
  (∀ p, preferredRoom options = Some p → p ≠ 0 → slot_roomId s = p) ∧
  (∃ t, targetDateOf options = Returned (Some t) ∧
        slot_date s = split_T_head (toISOString t)) ∧
  ∃ hour,
    9 ≤ hour < 18 ∧
    slot_startTime s = hourLabel hour ∧
    slot_endTime s = hourLabel (hour + 1) ∧
    Spec.minutesOfDay (slot_startTime s) = Some (hour * 60) ∧
    Spec.minutesOfDay (slot_endTime s) = Some (hour * 60 + 60).
Proof.
  intros Hres Hs.
  destruct (findNextAvailable_slots _ _ _ Hres) as [Hnil | (t & result & Hdate & ->)].
  { rewrite Hnil in Hs. by apply elem_of_nil in Hs. }
  apply elem_of_slotsResult in Hs as [Hs _].
  apply elem_of_defaultSlots in Hs as (room & hour & Hroom & Hskip & Hhour & ->).
  apply hours_resolveRange in Hhour. simpl.
  split; [exact Hroom |]. split.
  { intros p Hp Hne. rewrite Hp, (skipRoom_truthy p room Hne) in Hskip.
    apply negb_false_iff, bool_decide_eq_true in Hskip. by symmetry. }
  split; [by exists t |].
  exists hour. split; [exact Hhour |]. split; [reflexivity |]. split; [reflexivity |].
  rewrite !hourLabel_minutes by lia. split; [reflexivity |]. f_equal. lia.
Qed.

(** X20. No slot is proposed twice: the slots [findNextAvailable] returns
    are pairwise distinct, and no two of them share both room and start
    time. *)
Theorem findNextAvailable_slots_distinct options reply res :
  findNextAvailable options reply = Returned res →
  NoDup (availableSlots res) ∧
  ∀ s1 s2, s1 ∈ availableSlots res → s2 ∈ availableSlots res →
           slot_roomId s1 = slot_roomId s2 →
           slot_startTime s1 = slot_startTime s2 → s1 = s2.
Proof.
  intros Hres.
  destruct (findNextAvailable_slots _ _ _ Hres) as [Hnil | (t & result & Hdate & ->)].
  { rewrite Hnil. split; [apply NoDup_nil_2 |].
    intros s1 s2 Hs1. by apply elem_of_nil in Hs1. }
  split.
  - unfold slotsResult. case_bool_decide; simpl.
    + apply NoDup_defaultSlots_resolved.
    + apply NoDup_filter, NoDup_defaultSlots_resolved.
  - intros s1 s2 Hs1 Hs2 Hroom Hstart.
    apply elem_of_slotsResult in Hs1 as [Hs1 _].
    apply elem_of_slotsResult in Hs2 as [Hs2 _].
    apply elem_of_defaultSlots in Hs1 as (room1 & h1 & _ & _ & Hh1 & ->).
    apply elem_of_defaultSlots in Hs2 as (room2 & h2 & _ & _ & Hh2 & ->).
    apply hours_resolveRange in Hh1. apply hours_resolveRange in Hh2.
    simpl in Hroom, Hstart. subst room2. f_equal.
    apply hourLabel_inj; [lia | lia | exact Hstart].
Qed.



End SlotSearchExtraFacts.

Section CheckFacts.

Import SQLiteReservationTool.

Context {Data : Type}.


(** X18. [checkAvailability] hands over the [data] of the response, and
    only that: it returns exactly when the date is valid and the response is
    ok with an object body, and what it returns is the [data] field of that
    body. *)
Theorem checkAvailability_returns
    (date : Date) startTime roomId (reply : CheckReply (Data := Data)) d :
  checkAvailability date startTime roomId reply = Returned d ↔
  is_Some date ∧
  ∃ result, reply = CheckResponse true (CheckJsonObject result) ∧ check_data result = d.
Proof.
  unfold checkAvailability. destruct date as [t |].
  - destruct reply as [e | [|] [e | | result]];
      (split; [try discriminate | intros (_ & o & Ho & Hd); try discriminate]).
    + intros [= <-]. split; [by eexists |]. by eexists.
    + injection Ho as <-. by rewrite Hd.
  - split; [discriminate | intros ([? ?] & _); discriminate].
Qed.


End CheckFacts.

Section SlotSearchExtraExamples.

Import SQLiteReservationTool Examples MoreExamples.

#[local] Abbreviation findNextAvailable :=
  (findNextAvailable UTC.toISOString UTC.parseDateString UTC.validateDate).

(** X15 at a morning search of all rooms, for the first slot returned. *)
Lemma findNextAvailable_slots_on_grid_witness :
  findNextAvailable morning_all_rooms created
  = Returned {| availableSlots := defaultSlots "2024-06-01" (RangeEntry morning) None;
                result_success := Some true; result_error := None |} ∧
  slot 1 "09:00" "10:00" ∈ defaultSlots "2024-06-01" (RangeEntry morning) None ∧
  slot_roomId (slot 1 "09:00" "10:00") ∈ rooms ∧
  ∃ hour,
    9 ≤ hour < 18 ∧
    slot_startTime (slot 1 "09:00" "10:00") = hourLabel hour ∧
    slot_endTime (slot 1 "09:00" "10:00") = hourLabel (hour + 1) ∧
    Spec.minutesOfDay (slot_startTime (slot 1 "09:00" "10:00")) = Some (hour * 60) ∧
    Spec.minutesOfDay (slot_endTime (slot 1 "09:00" "10:00")) = Some (hour * 60 + 60).
Proof.
  assert (H1 : findNextAvailable morning_all_rooms created
               = Returned {| availableSlots :=
                               defaultSlots "2024-06-01" (RangeEntry morning) None;
                             result_success := Some true; result_error := None |})
    by (vm_compute; reflexivity).
  assert (H2 : slot 1 "09:00" "10:00"
               ∈ defaultSlots "2024-06-01" (RangeEntry morning) None)
    by (vm_compute; left).
  split; [exact H1 |]. split; [exact H2 |].
  destruct (findNextAvailable_slots_on_grid UTC.toISOString UTC.parseDateString
              UTC.validateDate morning_all_rooms created _ _ H1 H2)
    as (Hroom & _ & _ & Hhour).
  split; [exact Hroom | exact Hhour].
Defined.

(** X20 at a morning search of all rooms with one reservation. *)
Lemma findNextAvailable_slots_distinct_witness :
  findNextAvailable morning_all_rooms
    (Response true (JsonObject (body_of [ten_oclock])))
  = Returned {| availableSlots :=
                  filterSlots (defaultSlots "2024-06-01" (RangeEntry morning) None)
                    [ten_oclock];
                result_success := Some true; result_error := None |} ∧
  NoDup (filterSlots (defaultSlots "2024-06-01" (RangeEntry morning) None) [ten_oclock]).
Proof.
  assert (H : findNextAvailable morning_all_rooms
                (Response true (JsonObject (body_of [ten_oclock])))
              = Returned {| availableSlots :=
                              filterSlots
                                (defaultSlots "2024-06-01" (RangeEntry morning) None)
                                [ten_oclock];
                            result_success := Some true; result_error := None |})
    by (vm_compute; reflexivity).
  split; [exact H |].
  exact (proj1 (findNextAvailable_slots_distinct UTC.toISOString UTC.parseDateString
                  UTC.validateDate morning_all_rooms _ _ H)).
Defined.




End SlotSearchExtraExamples.
